(** * Task coordination core of the task manager

    A shallow embedding of the coordination code of the repository:

    - [src/models/task.py]           the task states and the status record,
    - [src/core/config.py]           the settings,
    - [src/monitoring/notification.py] the timeout notification,
    - [src/utils/storage.py]         the per-task scratch directory,
    - [src/core/task_manager.py]     [TaskManager]: task and subtask
                                     submission, status polling, the blocking
                                     wait and cleanup,
    - [src/monitoring/metrics.py]    the metrics collector,
    - [src/core/celery_app.py]       the monitoring hooks,
    - [src/workers/gpu_worker.py]    the model registry and the GPU tasks,
    - [src/workers/cpu_worker.py]    the image classification,
    - [src/api/main.py]              the HTTP handlers,
    - [examples/image_super_resolution.py] the category-based GPU routing.

    Conventions of the embedding.

    - Python functions that touch the outside world thread an explicit state
      and finish in an [Outcome]: a returned value or a raised exception, each
      with the state reached so far.
    - Instants and durations are integers counting microseconds (the
      resolution of [datetime]).  [timedelta.total_seconds()] divides an
      integer number of microseconds by 10^6; comparing that quotient with an
      integer number of seconds agrees with the integer comparison used here
      for every threshold of practical size.
    - The [while True] loop of [wait_for_task] is run with a bound on the
      number of polls; [None] means that the loop is still running after that
      many polls.
    - Task ids and file names enter a path as one component each, which is
      what [pathlib] does with a plain name ([plain_name]); statements that
      tell files or directories apart by their names are made for plain
      names.  The file system is a case-sensitive tree without links,
      permissions or concurrent writers, so [shutil.rmtree] removes a
      directory as a whole or not at all.
    - Calls of [logger] are not modelled. *)

From Stdlib Require Import ZArith Lia QArith.
From Stdlib.Strings Require Import Byte.
From stdpp Require Import gmap strings list fin_maps pretty.

#[local] Open Scope Z_scope.
#[local] Open Scope string_scope.

(** ** Outcomes of effectful calls *)

(** Exceptions.  [ValueError] is the one class the repository raises itself,
    with its message; [LibError] stands for an exception raised inside a
    library call and carries the name of its class. *)
Inductive Exn : Type :=
  | ValueError (msg : string)
  | LibError (class : string).

Inductive Outcome (St A : Type) : Type :=
  | Ok (a : A) (s : St)
  | Raise (e : Exn) (s : St).

Arguments Ok {St A} a s.
Arguments Raise {St A} e s.

Definition bind {St A B} (m : St -> Outcome St A) (k : A -> St -> Outcome St B)
  : St -> Outcome St B :=
  fun s => match m s with
           | Ok a s' => k a s'
           | Raise e s' => Raise e s'
           end.

Definition ret {St A} (a : A) : St -> Outcome St A := fun s => Ok a s.
Definition raise {St A} (e : Exn) : St -> Outcome St A := fun s => Raise e s.

(** [try: body except Exception: handler] where the handler only logs. *)
Definition try_except_log {St} (body : St -> Outcome St unit) : St -> Outcome St unit :=
  fun s => match body s with
           | Ok _ s' => Ok tt s'
           | Raise _ s' => Ok tt s'
           end.

Notation "'let!' x ':=' m 'in' k" := (bind m (fun x => k))
  (at level 10, x pattern, m at level 100, k at level 200).
Notation "'do!' m 'in' k" := (bind m (fun _ => k))
  (at level 10, m at level 100, k at level 200).

Definition final_state {St A} (o : Outcome St A) : St :=
  match o with Ok _ s => s | Raise _ s => s end.

(** ** Python values crossing the result store *)

(** The payload a result handle exposes as [result.info] / [result.result]:
    [None], a dictionary of JSON-like fields, the exception of a failed task,
    or any other value (kept as its printed form). *)
Inductive PyField : Type :=
  | FStr (s : string)
  | FNum (z : Z).

Inductive PyVal : Type :=
  | PyNone
  | PyDict (d : gmap string PyField)
  | PyExc (msg : string)
  | PyOther (printed : string).

(** [isinstance(v, dict) and key in v] followed by [v[key]]. *)
Definition dict_get (v : PyVal) (key : string) : option PyField :=
  match v with
  | PyDict d => d !! key
  | _ => None
  end.

(** What [datetime.fromisoformat] makes of a string: an error, a naive
    instant, or an instant carrying a time zone. *)
Inductive IsoParse : Type :=
  | IsoInvalid
  | IsoNaive (micros : Z)
  | IsoAware (micros : Z).

(** The library functions the coordination code calls on its data. *)
Class PyRuntime : Type := {
  (** [str(v)] *)
  py_str : PyVal -> string;
  (** [datetime.fromisoformat(s)] *)
  fromisoformat : string -> IsoParse;
  (** [f"{x:.1f}"] for [x] the given number of microseconds, in seconds *)
  format_1f : Z -> string;
}.

(** ** [src/models/task.py] *)

Module Models.

Inductive WorkerType : Type := IO | CPU | GPU.

Inductive TaskState : Type :=
  | PENDING | RECEIVED | STARTED | SUCCESS | FAILURE | TIMEOUT | REVOKED.

#[global] Instance TaskState_eq_dec : EqDecision TaskState.
Proof. solve_decision. Defined.

(** The value of each member ([class TaskState(str, Enum)]). *)
Definition value (s : TaskState) : string :=
  match s with
  | PENDING => "PENDING"
  | RECEIVED => "RECEIVED"
  | STARTED => "STARTED"
  | SUCCESS => "SUCCESS"
  | FAILURE => "FAILURE"
  | TIMEOUT => "TIMEOUT"
  | REVOKED => "REVOKED"
  end.

Definition members : list TaskState :=
  [PENDING; RECEIVED; STARTED; SUCCESS; FAILURE; TIMEOUT; REVOKED].

(** [TaskState(raw)]: the member whose value is [raw]; the enum defines no
    [_missing_] hook, so any other string is a [ValueError]. *)
Definition of_value (raw : string) : option TaskState :=
  List.find (fun s => String.eqb (value s) raw) members.

(** [TaskPriority]: LOW = 0, NORMAL = 5, HIGH = 10. *)
Inductive TaskPriority : Type := LOW | NORMAL | HIGH.

Definition priority_value (p : TaskPriority) : Z :=
  match p with LOW => 0 | NORMAL => 5 | HIGH => 10 end.

Record SubTaskConfig : Type := {
  name : string;
  worker_type : WorkerType;
  queue : string;
  args : list PyVal;
  kwargs : gmap string PyVal;
  priority : TaskPriority;
  timeout : option Z;
}.

(** [TaskStatus].  The result is a Python value, [PyNone] when absent. *)
Record TaskStatus : Type := {
  task_id : string;
  state : TaskState;
  progress : option Z;
  result : PyVal;
  error : option string;
  submitted_at : option Z;
  started_at : option Z;
  completed_at : option Z;
  subtasks : list string;
}.

(** [TaskStatus(task_id=.., state=.., result=.., error=..)]: the other
    fields take their defaults. *)
Definition mk_status (tid : string) (st : TaskState) (res : PyVal)
    (err : option string) : TaskStatus :=
  {| task_id := tid; state := st; progress := None; result := res;
     error := err; submitted_at := None; started_at := None;
     completed_at := None; subtasks := [] |}.

(** [status.state = st; status.error = err] *)
Definition set_state_error (status : TaskStatus) (st : TaskState)
    (err : string) : TaskStatus :=
  {| task_id := task_id status; state := st; progress := progress status;
     result := result status; error := Some err;
     submitted_at := submitted_at status; started_at := started_at status;
     completed_at := completed_at status; subtasks := subtasks status |}.

(** [TaskRequest], the body of a submission over HTTP. *)
Record TaskRequest : Type := {
  req_task_name : string;
  req_args : list PyVal;
  req_kwargs : gmap string PyVal;
  req_priority : TaskPriority;
  req_sync : bool;
}.

(** [TaskResponse]; [submitted_at] defaults to the instant the response is
    built. *)
Record TaskResponse : Type := {
  resp_task_id : string;
  resp_state : TaskState;
  resp_submitted_at : Z;
}.

End Models.

(** ** [src/core/config.py] *)

Module Config.

(** The settings the coordination code reads.  [shared_tmp_path] is kept
    as the list of its path components. *)
Record Settings : Type := {
  task_default_timeout : Z;
  task_queue_timeout : Z;
  queue_main : string;
  queue_io : string;
  queue_cpu : string;
  queue_gpu_general : string;
  queue_gpu_portrait : string;
  queue_gpu_landscape : string;
  shared_tmp_path : list string;
  admin_webhook_url : option string;
  admin_email : option string;
}.

(** The defaults of the class. *)
Definition defaults : Settings := {|
  task_default_timeout := 300;
  task_queue_timeout := 30;
  queue_main := "main";
  queue_io := "io";
  queue_cpu := "cpu";
  queue_gpu_general := "gpu-general";
  queue_gpu_portrait := "gpu-portrait";
  queue_gpu_landscape := "gpu-landscape";
  shared_tmp_path := ["tmp"; "shared"; "tasks"];
  admin_webhook_url := None;
  admin_email := None;
|}.

End Config.

(** ** The queue and the result store (Celery)

    The external collaborator, reduced to what the coordination code calls:
    the task registry, signatures, [group(..).apply_async()],
    [chain(..).apply_async()], the reads of a result handle and [revoke]. *)

Module Celery.

(** A registered task. *)
Record Task : Type := { task_name : string }.

(** [celery_app.tasks]: a dictionary from names to tasks. *)
Abbreviation Registry := (gmap string Task).

(** [task_func.signature(args=.., kwargs=.., priority=.., queue=..,
    time_limit=..)] *)
Record Signature : Type := {
  sig_task : string;
  sig_args : list PyVal;
  sig_kwargs : gmap string PyVal;
  sig_priority : Models.TaskPriority;
  sig_queue : string;
  sig_time_limit : option Z;
}.

Definition signature (t : Task) (a : list PyVal) (k : gmap string PyVal)
    (p : Models.TaskPriority) (q : string) (tl : option Z) : Signature :=
  {| sig_task := task_name t; sig_args := a; sig_kwargs := k;
     sig_priority := p; sig_queue := q; sig_time_limit := tl |}.

(** A message on the queue: the id under which the task runs, its
    signature, and the stages still to run after it when it heads a chain. *)
Record Message : Type := {
  msg_id : string;
  msg_sig : Signature;
  msg_chain : list (string * Signature);
}.

(** The queue: a counter from which fresh ids are made and the messages
    published so far, oldest first. *)
Record Broker : Type := {
  next_id : nat;
  published : list Message;
}.

Definition fresh_id (n : nat) : string := "task-" +:+ pretty n.

(** A result handle: only its id matters to the caller. *)
Record AsyncResult : Type := { id : string }.

(** Give every signature an id, in order. *)
Fixpoint freeze (n : nat) (sigs : list Signature) : list (string * Signature) :=
  match sigs with
  | [] => []
  | sg :: rest => (fresh_id n, sg) :: freeze (S n) rest
  end.

(** [group(tasks).apply_async()]: every member is published on its own,
    in order; [result.results] holds one handle per member, in the same
    order. *)
Definition group_apply_async (sigs : list Signature) (b : Broker)
  : list AsyncResult * Broker :=
  let frozen := freeze (next_id b) sigs in
  (map (fun m => {| id := m.1 |}) frozen,
   {| next_id := (next_id b + length sigs)%nat;
      published := published b ++
        map (fun m => {| msg_id := m.1; msg_sig := m.2; msg_chain := [] |}) frozen |}).

(** [chain(tasks).apply_async()]: only the first stage is published,
    carrying the later stages; the handle returned is that of the last
    stage.  For an empty list nothing is frozen or published and the call
    returns [None]. *)
Definition chain_apply_async (sigs : list Signature) (b : Broker)
  : option AsyncResult * Broker :=
  match freeze (next_id b) sigs with
  | [] => (None, b)
  | m :: rest =>
      (Some {| id := (List.last rest m).1 |},
       {| next_id := (next_id b + length sigs)%nat;
          published := published b ++
            [{| msg_id := m.1; msg_sig := m.2; msg_chain := rest |}] |})
  end.

(** The result store: for each task id the state string and the payload
    ([result.info], which [result.result] aliases). *)
Abbreviation Backend := (gmap string (string * PyVal)).

(** [AsyncResult(task_id).state]: an id the store does not know reads as
    [PENDING]. *)
Definition state (be : Backend) (task_id : string) : string :=
  match be !! task_id with
  | Some (st, _) => st
  | None => "PENDING"
  end.

(** [AsyncResult(task_id).info] *)
Definition info (be : Backend) (task_id : string) : PyVal :=
  match be !! task_id with
  | Some (_, v) => v
  | None => PyNone
  end.

(** [result.successful()] and [result.failed()] *)
Definition successful (be : Backend) (task_id : string) : bool :=
  String.eqb (state be task_id) "SUCCESS".

Definition failed (be : Backend) (task_id : string) : bool :=
  String.eqb (state be task_id) "FAILURE".

(** [task_func.apply_async(args=.., kwargs=.., priority=..)]: one message
    under a fresh id.  The call names no queue; [route] is the queue the
    routing of the application gives to a task name. *)
Definition apply_async (route : string -> string) (t : Task) (a : list PyVal)
    (k : gmap string PyVal) (p : Models.TaskPriority) (b : Broker)
  : AsyncResult * Broker :=
  let i := fresh_id (next_id b) in
  ({| id := i |},
   {| next_id := S (next_id b);
      published := published b ++
        [{| msg_id := i;
            msg_sig := signature t a k p (route (task_name t)) None;
            msg_chain := [] |}] |}).

End Celery.

(** ** [src/monitoring/notification.py] *)

Module Notification.

(** The body of a webhook call. *)
Record Payload : Type := {
  event : string;
  p_task_id : string;
  wait_time : Z;
  message : string;
}.

(** What the notification module has done so far: the calls of
    [notify_admin_timeout] (task id and wait), the webhook posts that went
    through (url and body), and whether the webhook endpoint answers. *)
Record Outbox : Type := {
  calls : list (string * Z);
  webhook_up : bool;
  webhooks : list (string * Payload);
}.

(** [_send_webhook(url, payload)]: the post, then [raise_for_status()]. *)
Definition _send_webhook (url : string) (payload : Payload)
  : Outbox -> Outcome Outbox unit :=
  fun o =>
    if webhook_up o then
      Ok tt {| calls := calls o; webhook_up := webhook_up o;
               webhooks := webhooks o ++ [(url, payload)] |}
    else Raise (LibError "HTTPError") o.

(** [_send_email(to, subject, body)]: a placeholder that only logs. *)
Definition _send_email (to subject body : string) : Outbox -> Outcome Outbox unit :=
  ret tt.

(** Truth value of an optional string setting: [None] and the empty
    string are false. *)
Definition configured (v : option string) : option string :=
  match v with
  | Some s => if String.eqb s "" then None else Some s
  | None => None
  end.

(** Entering [notify_admin_timeout]: its first statement, the warning with
    the message, runs on every call; the call is recorded here. *)
Definition enter (task_id : string) (wait : Z) : Outbox -> Outcome Outbox unit :=
  fun o => Ok tt {| calls := calls o ++ [(task_id, wait)];
                    webhook_up := webhook_up o; webhooks := webhooks o |}.

Definition notify_admin_timeout `{RT : PyRuntime} (s : Config.Settings)
    (task_id : string) (wait : Z) : Outbox -> Outcome Outbox unit :=
  let msg := "Task " +:+ task_id +:+ " timed out after " +:+ format_1f wait
             +:+ "s in queue" in
  do! enter task_id wait in
  do! match configured (Config.admin_webhook_url s) with
      | Some url =>
          try_except_log
            (_send_webhook url {| event := "task_timeout"; p_task_id := task_id;
                                  wait_time := wait; message := msg |})
      | None => ret tt
      end in
  match configured (Config.admin_email s) with
  | Some to =>
      try_except_log
        (_send_email to ("Task Timeout Alert: " +:+ task_id) msg)
  | None => ret tt
  end.

End Notification.

(** ** [src/utils/storage.py] *)

Module Storage.

(** The file system: a tree of directories and files.  A path is the list
    of its components from the root of the file system.  Task ids and file
    names are joined to a path as one component each.  That is what
    [Path(..) / name] does for a plain name ([plain_name] below: not empty,
    not [.] or [..], without [/] or a null byte, at most 255 bytes); the
    statements that depend on it are made for plain names only. *)
#[warnings="-register-all"]
Inductive Node : Type :=
  | File (data : list Byte.byte)
  | Dir (entries : gmap string Node).

Abbreviation Path := (list string).

(** What lives at a path, if anything. *)
Fixpoint lookup_path (n : Node) (p : Path) : option Node :=
  match p with
  | [] => Some n
  | c :: p' =>
      match n with
      | Dir es =>
          match es !! c with
          | Some child => lookup_path child p'
          | None => None
          end
      | File _ => None
      end
  end.

(** [path.exists()] *)
Definition exists_ (n : Node) (p : Path) : bool :=
  bool_decide (is_Some (lookup_path n p)).

(** [path.mkdir(parents=True, exist_ok=True)]: missing directories along
    the path are created; an existing directory is left alone; a regular
    file on the way or at the end is an [OSError] ([None]). *)
Fixpoint mkdir_p (p : Path) (n : Node) : option Node :=
  match n with
  | File _ => None
  | Dir es =>
      match p with
      | [] => Some n
      | c :: p' =>
          match mkdir_p p' (default (Dir ∅) (es !! c)) with
          | Some child => Some (Dir (<[c := child]> es))
          | None => None
          end
      end
  end.

(** [shutil.rmtree(path)]: the directory at the path goes with everything
    below it; a path that is missing or not a directory is an [OSError]
    ([None]).  A removal that the system refuses half-way (permissions, an
    entry in use) is not represented: the tree carries no such state. *)
Fixpoint rmtree (p : Path) (n : Node) : option Node :=
  match p, n with
  | c :: p', Dir es =>
      match es !! c with
      | Some child =>
          match p' with
          | [] =>
              match child with
              | Dir _ => Some (Dir (delete c es))
              | File _ => None
              end
          | _ :: _ =>
              match rmtree p' child with
              | Some child' => Some (Dir (<[c := child']> es))
              | None => None
              end
          end
      | None => None
      end
  | _, _ => None
  end.

Definition os_call (f : Node -> option Node) : Node -> Outcome Node unit :=
  fun n => match f n with
           | Some n' => Ok tt n'
           | None => Raise (LibError "OSError") n
           end.

(** [Path(settings.shared_tmp_path) / task_id], for a plain task id. *)
Definition task_path (s : Config.Settings) (task_id : string) : Path :=
  Config.shared_tmp_path s ++ [task_id].

Definition get_task_dir (s : Config.Settings) (task_id : string)
  : Node -> Outcome Node Path :=
  let task_dir := task_path s task_id in
  do! os_call (mkdir_p task_dir) in
  ret task_dir.

Definition cleanup_task_dir (task_dir : Path) : Node -> Outcome Node unit :=
  fun n =>
    if exists_ n task_dir then os_call (rmtree task_dir) n
    else Ok tt n.

(** [path.write_bytes(data)]: the parent must be a directory; the file is
    created or replaced; a directory at the path, or a missing parent, is an
    [OSError] ([None]). *)
Fixpoint write_bytes (p : Path) (data : list Byte.byte) (n : Node) : option Node :=
  match p, n with
  | c :: p', Dir es =>
      match p' with
      | [] =>
          match es !! c with
          | Some (Dir _) => None
          | _ => Some (Dir (<[c := File data]> es))
          end
      | _ :: _ =>
          match es !! c with
          | Some child =>
              match write_bytes p' data child with
              | Some child' => Some (Dir (<[c := child']> es))
              | None => None
              end
          | None => None
          end
      end
  | _, _ => None
  end.

(** [path.read_bytes()]: the content of the regular file at the path;
    anything else is an [OSError] ([None]). *)
Definition read_bytes (p : Path) (n : Node) : option (list Byte.byte) :=
  match lookup_path n p with
  | Some (File data) => Some data
  | _ => None
  end.

(** [get_task_dir(task_id) / filename], for a plain file name: one more
    component. *)
Definition get_task_file_path (s : Config.Settings) (task_id filename : string)
  : Node -> Outcome Node Path :=
  let! task_dir := get_task_dir s task_id in
  ret (task_dir ++ [filename])%list.

Definition save_task_data (s : Config.Settings) (task_id filename : string)
    (data : list Byte.byte) : Node -> Outcome Node unit :=
  let! file_path := get_task_file_path s task_id filename in
  os_call (write_bytes file_path data).

Definition load_task_data (s : Config.Settings) (task_id filename : string)
  : Node -> Outcome Node (list Byte.byte) :=
  let! file_path := get_task_file_path s task_id filename in
  fun n => match read_bytes file_path n with
           | Some data => Ok data n
           | None => Raise (LibError "OSError") n
           end.

End Storage.

(** ** [src/core/task_manager.py] *)

(** The part of the outside world [get_task_status] and [wait_for_task]
    work against: the result store, the clock, the revoke requests sent to
    the workers (task id and the [terminate] flag) and the notification
    module. *)
Record World : Type := {
  backend : Celery.Backend;
  now : Z;
  revoked : list (string * bool);
  outbox : Notification.Outbox;
}.

(** What the rest of the system (workers, other clients, the clock) does to
    the world while the caller is in [time.sleep(poll_interval)], for an
    interval that [time.sleep] accepts; the caller checks the sign before
    it gets here. *)
Class Scheduler : Type := {
  sleep : Z -> World -> World;
}.

Module TaskManager.

Import Models.

(** The loop of [submit_subtasks] that resolves every config and collects
    the signatures in [tasks]. *)
Fixpoint collect_signatures (reg : Celery.Registry) (configs : list SubTaskConfig)
    (tasks : list Celery.Signature)
  : Celery.Broker -> Outcome Celery.Broker (list Celery.Signature) :=
  match configs with
  | [] => ret tasks
  | config :: rest =>
      match reg !! name config with
      | None => raise (ValueError ("Task " +:+ name config +:+ " not found"))
      | Some task_func =>
          let sg := Celery.signature task_func (args config) (kwargs config)
                      (priority config) (queue config) (timeout config) in
          collect_signatures reg rest (tasks ++ [sg])
      end
  end.

Definition submit_subtasks (reg : Celery.Registry) (parent_task_id : string)
    (subtask_configs : list SubTaskConfig) (parallel : bool)
  : Celery.Broker -> Outcome Celery.Broker (list string) :=
  let! tasks := collect_signatures reg subtask_configs [] in
  if parallel then
    fun b =>
      let '(results, b') := Celery.group_apply_async tasks b in
      Ok (map Celery.id results) b'
  else
    fun b =>
      let '(result, b') := Celery.chain_apply_async tasks b in
      match result with
      | Some r => Ok [Celery.id r] b'
      | None => Raise (LibError "AttributeError") b'
      end.

(** [result.revoke(terminate=True)] *)
Definition revoke (task_id : string) (terminate : bool) : World -> Outcome World unit :=
  fun w => Ok tt {| backend := backend w; now := now w;
                    revoked := revoked w ++ [(task_id, terminate)];
                    outbox := outbox w |}.

(** A call into the notification module, seen from the world. *)
Definition notify (f : Notification.Outbox -> Outcome Notification.Outbox unit)
  : World -> Outcome World unit :=
  fun w =>
    let put o := {| backend := backend w; now := now w; revoked := revoked w;
                    outbox := o |} in
    match f (outbox w) with
    | Ok _ o => Ok tt (put o)
    | Raise e o => Raise e (put o)
    end.

(** Seconds to microseconds. *)
Definition seconds (n : Z) : Z := n * 1000000.

Definition get_task_status `{RT : PyRuntime} (s : Config.Settings) (task_id : string)
  : World -> Outcome World TaskStatus :=
  fun w =>
    let be := backend w in
    match of_value (Celery.state be task_id) with
    | None => Raise (LibError "ValueError") w
    | Some st =>
        let status :=
          mk_status task_id st
            (if Celery.successful be task_id then Celery.info be task_id else PyNone)
            (if Celery.failed be task_id then Some (py_str (Celery.info be task_id))
             else None) in
        if String.eqb (Celery.state be task_id) "PENDING" then
          let task_info := Celery.info be task_id in
          match dict_get task_info "submitted_at" with
          | None => Ok status w
          | Some (FNum _) => Raise (LibError "TypeError") w
          | Some (FStr iso) =>
              match fromisoformat iso with
              | IsoInvalid => Raise (LibError "ValueError") w
              | IsoAware _ => Raise (LibError "TypeError") w
              | IsoNaive submitted =>
                  let wait_time := now w - submitted in
                  if Z.gtb wait_time (seconds (Config.task_queue_timeout s)) then
                    let status' :=
                      set_state_error status TIMEOUT
                        ("Task timeout after " +:+ format_1f wait_time +:+ "s in queue") in
                    (do! revoke task_id true in
                     do! notify (Notification.notify_admin_timeout s task_id wait_time) in
                     ret status') w
                  else Ok status w
              end
          end
        else Ok status w
    end.

(** [status.state in [SUCCESS, FAILURE, TIMEOUT, REVOKED]] *)
Definition is_done (st : TaskState) : bool :=
  bool_decide (st ∈ [SUCCESS; FAILURE; TIMEOUT; REVOKED]).

(** [timeout and elapsed > timeout]: [None] and zero switch the test off. *)
Definition timed_out (timeout : option Z) (elapsed : Z) : bool :=
  match timeout with
  | None => false
  | Some t => negb (Z.eqb t 0) && Z.gtb elapsed t
  end.

(** The [while True] loop of [wait_for_task], for at most [fuel] polls.
    [time.sleep] raises a [ValueError] for a negative interval. *)
Fixpoint wait_loop `{RT : PyRuntime} `{SC : Scheduler} (fuel : nat) (s : Config.Settings)
    (task_id : string) (timeout : option Z) (poll_interval : Z) (start_time : Z)
    (w : World) : option (Outcome World TaskStatus) :=
  match fuel with
  | O => None
  | S fuel' =>
      match get_task_status s task_id w with
      | Raise e w' => Some (Raise e w')
      | Ok status w' =>
          if is_done (state status) then Some (Ok status w')
          else if timed_out timeout (now w' - start_time) then
            Some (Ok (set_state_error status TIMEOUT "Client timeout") w')
          else if Z.ltb poll_interval 0 then Some (Raise (LibError "ValueError") w')
          else
            wait_loop fuel' s task_id timeout poll_interval start_time
              (sleep poll_interval w')
      end
  end.

Definition wait_for_task `{RT : PyRuntime} `{SC : Scheduler} (fuel : nat) (s : Config.Settings)
    (task_id : string) (timeout : option Z) (poll_interval : Z) (w : World)
  : option (Outcome World TaskStatus) :=
  let start_time := now w in
  wait_loop fuel s task_id timeout poll_interval start_time w.

Definition cleanup_task (s : Config.Settings) (task_id : string)
  : Storage.Node -> Outcome Storage.Node unit :=
  try_except_log
    (let! task_dir := Storage.get_task_dir s task_id in
     Storage.cleanup_task_dir task_dir).

(** [submit_task].  [None] for [args] or [kwargs] is the default of the
    parameter; [priority] has the type every caller in the repository
    passes. *)
Definition submit_task (route : string -> string) (reg : Celery.Registry)
    (task_name : string) (args : option (list PyVal))
    (kwargs : option (gmap string PyVal)) (priority : TaskPriority)
  : Celery.Broker -> Outcome Celery.Broker string :=
  let args := match args with Some ((_ :: _) as a) => a | _ => [] end in
  let kwargs := match kwargs with Some k => if decide (k = ∅) then ∅ else k | None => ∅ end in
  match reg !! task_name with
  | None => raise (ValueError ("Task " +:+ task_name +:+ " not found"))
  | Some task_func =>
      fun b =>
        let '(result, b') := Celery.apply_async route task_func args kwargs priority b in
        Ok (Celery.id result) b'
  end.

End TaskManager.

(** ** [examples/image_super_resolution.py]: stage 3 of the pipeline *)

Module Pipeline.

Definition gpu_queue_map (s : Config.Settings) : gmap string string :=
  <["general" := Config.queue_gpu_general s]>
    (<["portrait" := Config.queue_gpu_portrait s]>
       (<["landscape" := Config.queue_gpu_landscape s]> ∅)).

Definition gpu_task_map : gmap string string :=
  <["general" := "gpu_inference_general"]>
    (<["portrait" := "gpu_inference_portrait"]>
       (<["landscape" := "gpu_inference_landscape"]> ∅)).

(** [gpu_queue_map.get(category, settings.queue_gpu_general)] *)
Definition gpu_queue (s : Config.Settings) (category : string) : string :=
  default (Config.queue_gpu_general s) (gpu_queue_map s !! category).

(** [gpu_task_map.get(category, "gpu_inference_general")] *)
Definition gpu_task_name (category : string) : string :=
  default "gpu_inference_general" (gpu_task_map !! category).

End Pipeline.

(** ** [src/monitoring/metrics.py] *)

Module Metrics.

(** The collector.  A counter or gauge with labels is a map from label
    values to its value, a histogram a map to the list of the values observed,
    oldest first.  The instruments no method writes, and the gauge of GPU
    utilisation, are left out. *)
Record TaskMetrics : Type := {
  tasks_submitted : gmap string nat;
  tasks_completed : gmap (string * string) nat;
  task_duration : gmap (string * string) (list Z);
  queue_depth : gmap string Z;
  tasks_timeout : gmap string nat;
  _task_start_times : gmap string Z;
}.

(** [TaskMetrics()] *)
Definition init : TaskMetrics :=
  {| tasks_submitted := ∅; tasks_completed := ∅; task_duration := ∅;
     queue_depth := ∅; tasks_timeout := ∅; _task_start_times := ∅ |}.

(** [counter.labels(..).inc()] *)
Definition inc `{Countable K} (k : K) (m : gmap K nat) : gmap K nat :=
  <[k := S (default 0%nat (m !! k))]> m.

(** [histogram.labels(..).observe(v)] *)
Definition observe `{Countable K} (k : K) (v : Z) (m : gmap K (list Z))
  : gmap K (list Z) :=
  <[k := (default [] (m !! k) ++ [v])%list]> m.

(** [s.lower()], on the letters A to Z. *)
Definition lower_ascii (c : Ascii.ascii) : Ascii.ascii :=
  let n := Ascii.nat_of_ascii c in
  if (Nat.leb 65 n && Nat.leb n 90)%bool then Ascii.ascii_of_nat (n + 32) else c.

Fixpoint lower (s : string) : string :=
  match s with
  | EmptyString => EmptyString
  | String c rest => String (lower_ascii c) (lower rest)
  end.

(** [needle in hay] *)
Fixpoint contains (needle hay : string) : bool :=
  String.prefix needle hay ||
  match hay with
  | EmptyString => false
  | String _ rest => contains needle rest
  end.

Definition _extract_worker_type (task_name : string) : string :=
  if contains "gpu" (lower task_name) then "gpu"
  else if contains "download" task_name || contains "upload" task_name then "io"
  else if contains "classify" task_name || contains "encode" task_name then "cpu"
  else "unknown".

Definition task_submitted (task_name : string) (m : TaskMetrics) : TaskMetrics :=
  {| tasks_submitted := inc task_name (tasks_submitted m);
     tasks_completed := tasks_completed m; task_duration := task_duration m;
     queue_depth := queue_depth m; tasks_timeout := tasks_timeout m;
     _task_start_times := _task_start_times m |}.

(** [task_started]; [t] is what [time.time()] returns. *)
Definition task_started (task_id task_name : string) (t : Z) (m : TaskMetrics)
  : TaskMetrics :=
  {| tasks_submitted := tasks_submitted m;
     tasks_completed := tasks_completed m; task_duration := task_duration m;
     queue_depth := queue_depth m; tasks_timeout := tasks_timeout m;
     _task_start_times := <[task_id := t]> (_task_start_times m) |}.

(** [task_completed]; [t] is what [time.time()] returns. *)
Definition task_completed (task_id task_name : string) (success : bool) (t : Z)
    (m : TaskMetrics) : TaskMetrics :=
  let status := if success then "success" else "failure" in
  let completed := inc (task_name, status) (tasks_completed m) in
  match _task_start_times m !! task_id with
  | Some started =>
      let duration := t - started in
      let worker_type := _extract_worker_type task_name in
      {| tasks_submitted := tasks_submitted m;
         tasks_completed := completed;
         task_duration := observe (task_name, worker_type) duration (task_duration m);
         queue_depth := queue_depth m; tasks_timeout := tasks_timeout m;
         _task_start_times := delete task_id (_task_start_times m) |}
  | None =>
      {| tasks_submitted := tasks_submitted m;
         tasks_completed := completed; task_duration := task_duration m;
         queue_depth := queue_depth m; tasks_timeout := tasks_timeout m;
         _task_start_times := _task_start_times m |}
  end.

Definition task_timeout (task_name : string) (m : TaskMetrics) : TaskMetrics :=
  {| tasks_submitted := tasks_submitted m;
     tasks_completed := tasks_completed m; task_duration := task_duration m;
     queue_depth := queue_depth m; tasks_timeout := inc task_name (tasks_timeout m);
     _task_start_times := _task_start_times m |}.

Definition update_queue_depth (queue_name : string) (depth : Z) (m : TaskMetrics)
  : TaskMetrics :=
  {| tasks_submitted := tasks_submitted m;
     tasks_completed := tasks_completed m; task_duration := task_duration m;
     queue_depth := <[queue_name := depth]> (queue_depth m);
     tasks_timeout := tasks_timeout m;
     _task_start_times := _task_start_times m |}.

End Metrics.

(** ** [src/core/celery_app.py]: the monitoring hooks *)

Module CeleryApp.

(** The three signal handlers.  [enable_metrics] is the setting of that
    name, [task_name] is [task.name], [t] the reading of the clock. *)
Definition task_prerun_handler (enable_metrics : bool) (task_id task_name : string)
    (t : Z) (m : Metrics.TaskMetrics) : Metrics.TaskMetrics :=
  if enable_metrics then Metrics.task_started task_id task_name t m else m.

Definition task_postrun_handler (enable_metrics : bool) (task_id task_name : string)
    (t : Z) (m : Metrics.TaskMetrics) : Metrics.TaskMetrics :=
  if enable_metrics then Metrics.task_completed task_id task_name true t m else m.

Definition task_failure_handler (enable_metrics : bool) (task_id : string)
    (t : Z) (m : Metrics.TaskMetrics) : Metrics.TaskMetrics :=
  if enable_metrics then Metrics.task_completed task_id "unknown" false t m else m.

(** A signal reaching the collector. *)
Inductive Signal : Type :=
  | Prerun (task_id task_name : string) (t : Z)
  | Postrun (task_id task_name : string) (t : Z)
  | Failure (task_id : string) (t : Z).

Definition handle (enable_metrics : bool) (sg : Signal) (m : Metrics.TaskMetrics)
  : Metrics.TaskMetrics :=
  match sg with
  | Prerun i n t => task_prerun_handler enable_metrics i n t m
  | Postrun i n t => task_postrun_handler enable_metrics i n t m
  | Failure i t => task_failure_handler enable_metrics i t m
  end.

(** The collector after a sequence of signals, oldest first. *)
Definition handle_all (enable_metrics : bool) (sgs : list Signal)
    (m : Metrics.TaskMetrics) : Metrics.TaskMetrics :=
  fold_left (fun acc sg => handle enable_metrics sg acc) sgs m.

End CeleryApp.

(** ** [src/workers/gpu_worker.py] *)

Module GpuWorker.

(** An entry of the registry of preloaded models. *)
Record Model : Type := {
  model_name : string;
  model_path : string;
  loaded : bool;
}.

(** [ModelRegistry._models] *)
Abbreviation Models := (gmap string Model).

Definition load_model (name path : string) (ms : Models) : Model * Models :=
  match ms !! name with
  | Some m => (m, ms)
  | None =>
      let m := {| model_name := name; model_path := path; loaded := true |} in
      (m, <[name := m]> ms)
  end.

Definition get_model (name : string) (ms : Models) : option Model := ms !! name.

Definition preload_models (ms : Models) : Models :=
  let ms := (load_model "general" "/models/general_model.pth" ms).2 in
  let ms := (load_model "portrait" "/models/portrait_model.pth" ms).2 in
  (load_model "landscape" "/models/landscape_model.pth" ms).2.

(** [run_inference].  [infer] stands for the image step of the placeholder
    (open the input, resize, save to the output path). *)
Definition run_inference {St : Type}
    (infer : Storage.Path -> Storage.Path -> St -> Outcome St unit)
    (ms : Models) (name : string) (input_image_path output_image_path : Storage.Path)
  : St -> Outcome St unit :=
  match get_model name ms with
  | None => raise (ValueError ("Model " +:+ name +:+ " not loaded"))
  | Some _ => infer input_image_path output_image_path
  end.

(** The body the three GPU tasks share, for the model each of them names. *)
Definition gpu_inference
    (infer : Storage.Path -> Storage.Path -> Storage.Node -> Outcome Storage.Node unit)
    (ms : Models) (name : string) (s : Config.Settings) (task_id : string)
    (input_path : Storage.Path)
  : Storage.Node -> Outcome Storage.Node Storage.Path :=
  let! output_path := Storage.get_task_file_path s task_id "output.jpg" in
  do! run_inference infer ms name input_path output_path in
  ret output_path.

Definition gpu_inference_general infer ms := gpu_inference infer ms "general".
Definition gpu_inference_portrait infer ms := gpu_inference infer ms "portrait".
Definition gpu_inference_landscape infer ms := gpu_inference infer ms "landscape".

End GpuWorker.

(** ** [src/workers/cpu_worker.py] *)

Module CpuWorker.

Inductive ImageCategory : Type := GENERAL | PORTRAIT | LANDSCAPE.

Definition value (c : ImageCategory) : string :=
  match c with
  | GENERAL => "general"
  | PORTRAIT => "portrait"
  | LANDSCAPE => "landscape"
  end.

(** The result dictionary of [classify_image]. *)
Record Classification : Type := {
  category : string;
  width : Z;
  height : Z;
  aspect_ratio : Q;
}.

(** The branch on the aspect ratio.  The quotient of the two integers is
    kept exact; against the constants 0.7, 1.3 and 1.5 the rounded quotient
    of the source compares the same way for every image size a file can
    have. *)
Definition categorize (ratio : Q) : ImageCategory :=
  if (Qle_bool (7 # 10) ratio && Qle_bool ratio (13 # 10))%bool then PORTRAIT
  else if negb (Qle_bool ratio (3 # 2)) then LANDSCAPE
  else GENERAL.

(** [classify_image].  [image_size] stands for [Image.open(..).size] on the
    bytes of a file ([None] when they are no image), [dumps] for
    [json.dumps(..).encode()]. *)
Definition classify_image (image_size : list Byte.byte -> option (Z * Z))
    (dumps : Classification -> list Byte.byte)
    (s : Config.Settings) (task_id : string) (image_path : Storage.Path)
  : Storage.Node -> Outcome Storage.Node Classification :=
  fun fs =>
    match Storage.read_bytes image_path fs with
    | None => Raise (LibError "OSError") fs
    | Some data =>
        match image_size data with
        | None => Raise (LibError "UnidentifiedImageError") fs
        | Some (w, h) =>
            if Z.eqb h 0 then Raise (LibError "ZeroDivisionError") fs
            else
              let ratio := (inject_Z w / inject_Z h)%Q in
              let result := {| category := value (categorize ratio); width := w;
                               height := h; aspect_ratio := ratio |} in
              (do! Storage.save_task_data s task_id "classification.json" (dumps result) in
               ret result) fs
        end
    end.

End CpuWorker.

(** ** [src/api/main.py] *)

Module Api.

(** The answer to a request: the body of a 200, or the 500 the handlers
    raise from an exception [e], whose detail is [str(e)]. *)
Inductive Http (A : Type) : Type :=
  | Http200 (body : A)
  | Http500 (e : Exn).

Arguments Http200 {A} body.
Arguments Http500 {A} e.

(** What the submission handler works against: the queue, the world of the
    status tracker, and the clean-ups handed to [background_tasks]. *)
Record Server : Type := {
  broker : Celery.Broker;
  world : World;
  background : list string;
}.

(** [POST /api/v1/tasks].  [fuel] bounds the polls of the wait; [None]
    means the handler is still waiting. *)
Definition submit_task `{RT : PyRuntime} `{SC : Scheduler} (fuel : nat)
    (route : string -> string) (reg : Celery.Registry) (s : Config.Settings)
    (request : Models.TaskRequest) (sv : Server)
  : option (Http Models.TaskResponse * Server) :=
  match TaskManager.submit_task route reg (Models.req_task_name request)
          (Some (Models.req_args request)) (Some (Models.req_kwargs request))
          (Models.req_priority request) (broker sv) with
  | Raise e b =>
      Some (Http500 e, {| broker := b; world := world sv; background := background sv |})
  | Ok task_id b =>
      if Models.req_sync request then
        match TaskManager.wait_for_task fuel s task_id
                (Some (TaskManager.seconds (Config.task_default_timeout s)))
                500000 (world sv) with
        | None => None
        | Some (Raise e w) =>
            Some (Http500 e, {| broker := b; world := w; background := background sv |})
        | Some (Ok status w) =>
            Some (Http200 {| Models.resp_task_id := task_id;
                             Models.resp_state := Models.state status;
                             Models.resp_submitted_at := now w |},
                  {| broker := b; world := w;
                     background := (background sv ++ [task_id])%list |})
        end
      else
        Some (Http200 {| Models.resp_task_id := task_id;
                         Models.resp_state := Models.PENDING;
                         Models.resp_submitted_at := now (world sv) |},
              {| broker := b; world := world sv; background := background sv |})
  end.

(** [GET /api/v1/tasks/{task_id}] *)
Definition get_task_status `{RT : PyRuntime} (s : Config.Settings) (task_id : string)
    (w : World) : Http Models.TaskStatus * World :=
  match TaskManager.get_task_status s task_id w with
  | Ok status w' => (Http200 status, w')
  | Raise e w' => (Http500 e, w')
  end.

(** [DELETE /api/v1/tasks/{task_id}]: the body is the status and the
    message. *)
Definition cleanup_task (s : Config.Settings) (task_id : string) (fs : Storage.Node)
  : Http (string * string) * Storage.Node :=
  match TaskManager.cleanup_task s task_id fs with
  | Ok _ fs' => (Http200 ("success", "Task " +:+ task_id +:+ " cleaned up"), fs')
  | Raise e fs' => (Http500 e, fs')
  end.

End Api.

(** ** Observations used in the statements *)

(** A name that [pathlib] and the file system take as one path component. *)
Definition plain_name (name : string) : bool :=
  negb (String.eqb name "") && negb (String.eqb name ".")
  && negb (String.eqb name "..")
  && negb (Metrics.contains "/" name)
  && negb (Metrics.contains (String Ascii.zero EmptyString) name)
  && Nat.leb (String.length name) 255.

(** How many times [notify_admin_timeout] has been called for a task. *)
Definition notifications_for (task_id : string) (w : World) : nat :=
  length (filter (fun c => c.1 = task_id) (Notification.calls (outbox w))).

(** The world after [n] calls of [get_task_status] in a row on one task,
    whatever each call returned. *)
Fixpoint polls `{RT : PyRuntime} (n : nat) (s : Config.Settings) (task_id : string)
    (w : World) : World :=
  match n with
  | O => w
  | S n' => polls n' s task_id (final_state (TaskManager.get_task_status s task_id w))
  end.

(** The task reads as [PENDING], its payload carries a [submitted_at] that
    parses to the naive instant [submitted], and it has waited longer than
    the queue timeout. *)
Definition overdue `{RT : PyRuntime} (s : Config.Settings) (task_id : string)
    (w : World) (submitted : Z) : Prop :=
  Celery.state (backend w) task_id = "PENDING" /\
  (exists iso, dict_get (Celery.info (backend w) task_id) "submitted_at" = Some (FStr iso) /\
               fromisoformat iso = IsoNaive submitted) /\
  now w - submitted > TaskManager.seconds (Config.task_queue_timeout s).





(** ** Fixtures: a small runtime, an idle scheduler and sample worlds *)

Module Fixtures.

Definition runtime : PyRuntime := {|
  py_str := fun v =>
    match v with
    | PyNone => "None"
    | PyDict _ => "{...}"
    | PyExc msg => msg
    | PyOther printed => printed
    end;
  fromisoformat := fun iso =>
    if String.eqb iso "1970-01-01T00:00:00" then IsoNaive 0
    else if String.eqb iso "1970-01-01T00:00:00+00:00" then IsoAware 0
    else IsoInvalid;
  format_1f := fun us => pretty (us / 1000000) +:+ "." +:+ pretty (us / 100000 mod 10);
|}.

(** Nothing happens during a sleep except that the clock moves on. *)
Definition idle : Scheduler := {|
  sleep := fun dt w =>
    {| backend := backend w; now := now w + dt; revoked := revoked w;
       outbox := outbox w |};
|}.

Definition empty_outbox : Notification.Outbox :=
  {| Notification.calls := []; Notification.webhook_up := true;
     Notification.webhooks := [] |}.

(** A world at instant [t] whose store knows the task [t1] in the given
    state with the given payload. *)
Definition world (raw : string) (payload : PyVal) (t : Z) : World :=
  {| backend := {[ "t1" := (raw, payload) ]}; now := t; revoked := [];
     outbox := empty_outbox |}.

(** A payload recording a submission at the epoch. *)
Definition envelope : PyVal :=
  PyDict {[ "submitted_at" := FStr "1970-01-01T00:00:00" ]}.

(** [t1] has been pending for 31 seconds. *)
Definition stale : World := world "PENDING" envelope 31000000.

Definition registry : Celery.Registry :=
  <["classify_image" := {| Celery.task_name := "classify_image" |}]>
    (<["encode_result" := {| Celery.task_name := "encode_result" |}]> ∅).

Definition config (n : string) : Models.SubTaskConfig :=
  {| Models.name := n; Models.worker_type := Models.CPU;
     Models.queue := "cpu_queue"; Models.args := []; Models.kwargs := ∅;
     Models.priority := Models.NORMAL; Models.timeout := None |}.

Definition empty_broker : Celery.Broker :=
  {| Celery.next_id := 0; Celery.published := [] |}.

(** Directories nested one inside the other along a path, ending in the
    given node. *)
Fixpoint under (p : Storage.Path) (n : Storage.Node) : Storage.Node :=
  match p with
  | [] => n
  | c :: p' => Storage.Dir {[ c := under p' n ]}
  end.

(** The scratch root holding two task directories: [task-a] with two
    files and a third one in a subdirectory, [task-b] with one file. *)
Definition task_a : Storage.Node :=
  Storage.Dir (<["input.jpg" := Storage.File ["x"%byte]]>
                 (<["meta.json" := Storage.File ["y"%byte]]>
                    {[ "out" := Storage.Dir {[ "result.jpg" := Storage.File ["z"%byte] ]} ]})).

Definition task_b : Storage.Node :=
  Storage.Dir {[ "input.jpg" := Storage.File ["w"%byte] ]}.

Definition disk : Storage.Node :=
  under ["tmp"; "shared"; "tasks"]
    (Storage.Dir (<["task-a" := task_a]> {[ "task-b" := task_b ]})).

Definition disk_without_a : Storage.Node :=
  under ["tmp"; "shared"; "tasks"] (Storage.Dir {[ "task-b" := task_b ]}).

(** A scratch root in which the name [task-a] is taken by a regular file. *)
Definition disk_with_file : Storage.Node :=
  under ["tmp"; "shared"; "tasks"]
    (Storage.Dir {[ "task-a" := Storage.File ["x"%byte] ]}).

(** A worker picks [t1] up 0.15 s after the epoch and finishes it at
    0.25 s: a sleep moves the clock and stores what the worker has reached
    by then. *)
Definition working : Scheduler := {|
  sleep := fun dt w =>
    let t := now w + dt in
    let be :=
      if Z.leb 250000 t then <["t1" := ("SUCCESS", PyOther "done")]> (backend w)
      else if Z.leb 150000 t then <["t1" := ("STARTED", PyNone)]> (backend w)
      else backend w in
    {| backend := be; now := t; revoked := revoked w; outbox := outbox w |};
|}.

End Fixtures.

(** The message a submission over HTTP publishes. *)
Definition request_message (route : string -> string) (t : Celery.Task)
    (request : Models.TaskRequest) (b : Celery.Broker) : Celery.Message :=
  {| Celery.msg_id := Celery.fresh_id (Celery.next_id b);
     Celery.msg_sig :=
       Celery.signature t (Models.req_args request) (Models.req_kwargs request)
         (Models.req_priority request) (route (Celery.task_name t)) None;
     Celery.msg_chain := [] |}.

(** The labels under which a signal counts a completed task, if it counts
    one. *)
Definition completion_label (sg : CeleryApp.Signal) : option (string * string) :=
  match sg with
  | CeleryApp.Prerun _ _ _ => None
  | CeleryApp.Postrun _ n _ => Some (n, "success")
  | CeleryApp.Failure _ _ => Some ("unknown", "failure")
  end.

(** The signal is the start of the given task. *)
Definition starts (task_id : string) (sg : CeleryApp.Signal) : Prop :=
  match sg with
  | CeleryApp.Prerun i _ _ => i = task_id
  | _ => False
  end.

(** The signal is the end, successful or not, of the given task. *)
Definition ends (task_id : string) (sg : CeleryApp.Signal) : Prop :=
  match sg with
  | CeleryApp.Prerun _ _ _ => False
  | CeleryApp.Postrun i _ _ => i = task_id
  | CeleryApp.Failure i _ => i = task_id
  end.

(** ** More fixtures: a router, requests, a server and a collector *)

Module Samples.

(** Every task goes to the default queue. *)
Definition route (task_name : string) : string := "celery".

Definition request (n : string) (sync : bool) : Models.TaskRequest :=
  {| Models.req_task_name := n; Models.req_args := [PyOther "task-1"];
     Models.req_kwargs := ∅; Models.req_priority := Models.NORMAL;
     Models.req_sync := sync |}.

Definition server (w : World) : Api.Server :=
  {| Api.broker := Fixtures.empty_broker; Api.world := w; Api.background := [] |}.

(** The store already shows the task the next submission will create as
    retrying. *)
Definition retrying : World :=
  {| backend := {[ "task-0" := ("RETRY", PyNone) ]}; now := 0; revoked := [];
     outbox := Fixtures.empty_outbox |}.

(** The store shows that task as finished. *)
Definition finished : World :=
  {| backend := {[ "task-0" := ("SUCCESS", PyOther "done") ]}; now := 0; revoked := [];
     outbox := Fixtures.empty_outbox |}.

(** An image step that does nothing. *)
Definition no_infer (input output : Storage.Path) : Storage.Node -> Outcome Storage.Node unit :=
  ret tt.

(** Image sizes read off the first two bytes of a file. *)
Definition image_size (data : list Byte.byte) : option (Z * Z) :=
  match data with
  | a :: b :: _ => Some (Z.of_N (Byte.to_N a), Z.of_N (Byte.to_N b))
  | _ => None
  end.

Definition dumps (c : CpuWorker.Classification) : list Byte.byte :=
  String.list_byte_of_string (CpuWorker.category c).

End Samples.

(** ** Properties of [TaskState] *)

Section TaskStateFacts.

Import Models.

Lemma of_value_value (st : TaskState) : of_value (value st) = Some st.
Proof. destruct st; reflexivity. Qed.

Lemma of_value_Some (raw : string) (st : TaskState) :
  of_value raw = Some st -> raw = value st.
Proof.
  unfold of_value. intros Hfind.
  apply List.find_some in Hfind as [_ Heq].
  symmetry. by apply String.eqb_eq.
Qed.

Lemma of_value_None (raw : string) :
  raw ∉ map value members -> of_value raw = None.
Proof.
  intros Hnot. destruct (of_value raw) as [st|] eqn:Hdec; [|done].
  apply of_value_Some in Hdec. subst raw.
  exfalso. apply Hnot. apply list_elem_of_fmap_2.
  destruct st; set_solver.
Qed.

End TaskStateFacts.

(** ** [notify_admin_timeout] and [get_task_status] *)

Section StatusFacts.

Context `{RT : PyRuntime}.
Import Models.

(** The notification never raises, whatever the channels do, and records
    exactly one call. *)
Lemma notify_admin_timeout_ok (s : Config.Settings) (task_id : string) (wait : Z)
    (o : Notification.Outbox) :
  exists o',
    Notification.notify_admin_timeout s task_id wait o = Ok tt o' /\
    Notification.calls o' = (Notification.calls o ++ [(task_id, wait)])%list.
Proof.
  unfold Notification.notify_admin_timeout, Notification.enter,
    Notification._send_webhook, Notification._send_email, bind, ret,
    try_except_log.
  destruct (Notification.configured (Config.admin_webhook_url s));
    destruct (Notification.configured (Config.admin_email s));
    simpl; destruct (Notification.webhook_up o); simpl; eauto.
Qed.

(** The reclassification branch, in full. *)
Lemma get_task_status_overdue (s : Config.Settings) (task_id : string) (w : World)
    (submitted : Z) :
  overdue s task_id w submitted ->
  exists status w',
    TaskManager.get_task_status s task_id w = Ok status w' /\
    status = set_state_error (mk_status task_id PENDING PyNone None) TIMEOUT
               ("Task timeout after " +:+ format_1f (now w - submitted) +:+ "s in queue") /\
    backend w' = backend w /\ now w' = now w /\
    revoked w' = (revoked w ++ [(task_id, true)])%list /\
    Notification.calls (outbox w') =
      (Notification.calls (outbox w) ++ [(task_id, now w - submitted)])%list.
Proof.
  intros (Hstate & (iso & Hget & Hparse) & Hlate).
  unfold TaskManager.get_task_status, Celery.successful, Celery.failed.
  rewrite Hstate. change (of_value "PENDING") with (Some PENDING).
  cbn [String.eqb Ascii.eqb Bool.eqb]. cbv iota.
  rewrite Hget, Hparse.
  replace (Z.gtb _ _) with true by (symmetry; apply Z.gtb_lt; lia).
  unfold bind, TaskManager.revoke, TaskManager.notify, ret. cbn [outbox].
  destruct (notify_admin_timeout_ok s task_id (now w - submitted) (outbox w))
    as (o' & -> & Hcalls).
  eexists _, _. split; [reflexivity|]. cbn. by rewrite Hcalls.
Qed.

(** Every other branch leaves the world alone. *)
Lemma get_task_status_calls (s : Config.Settings) (task_id : string) (w : World) :
  let w' := final_state (TaskManager.get_task_status s task_id w) in
  Notification.calls (outbox w') = Notification.calls (outbox w) \/
  exists wait,
    Notification.calls (outbox w') =
      (Notification.calls (outbox w) ++ [(task_id, wait)])%list.
Proof.
  unfold TaskManager.get_task_status.
  repeat case_match; simpl; auto;
    unfold bind, TaskManager.revoke, TaskManager.notify, ret; cbn [outbox];
    match goal with
    | |- context [Notification.notify_admin_timeout _ _ ?wt ?o] =>
        destruct (notify_admin_timeout_ok s task_id wt o) as (o' & -> & Hc)
    end;
    right; cbn; eauto.
Qed.

(** No branch writes to the result store or moves the clock. *)
Lemma get_task_status_frame (s : Config.Settings) (task_id : string) (w : World) :
  let w' := final_state (TaskManager.get_task_status s task_id w) in
  backend w' = backend w /\ now w' = now w.
Proof.
  unfold TaskManager.get_task_status.
  repeat case_match; simpl; auto;
    unfold bind, TaskManager.revoke, TaskManager.notify, ret; cbn [outbox];
    match goal with
    | |- context [Notification.notify_admin_timeout _ _ ?wt ?o] =>
        destruct (notify_admin_timeout_ok s task_id wt o) as (o' & -> & Hc)
    end;
    cbn; auto.
Qed.

Lemma get_task_status_other (s : Config.Settings) (task_id : string) (w : World)
    (st : TaskState) :
  Celery.state (backend w) task_id = value st ->
  st <> PENDING ->
  TaskManager.get_task_status s task_id w =
    Ok (mk_status task_id st
          (if decide (st = SUCCESS) then Celery.info (backend w) task_id else PyNone)
          (if decide (st = FAILURE) then Some (py_str (Celery.info (backend w) task_id))
           else None)) w.
Proof.
  intros Hstate Hne.
  unfold TaskManager.get_task_status, Celery.successful, Celery.failed.
  rewrite Hstate, of_value_value.
  destruct st; try done; reflexivity.
Qed.

Lemma notifications_for_snoc (task_id other : string) (wait : Z) (w w' : World) :
  Notification.calls (outbox w') =
    (Notification.calls (outbox w) ++ [(other, wait)])%list ->
  notifications_for task_id w' =
    (notifications_for task_id w + if decide (other = task_id) then 1 else 0)%nat.
Proof.
  intros Hc. unfold notifications_for. rewrite Hc, filter_app, length_app.
  f_equal. rewrite filter_cons. cbn [fst].
  destruct (decide (other = task_id)); reflexivity.
Qed.

End StatusFacts.

(** ** [get_task_status]: the claims *)

(** C10.  When the state string read from the result store is not the value
    of one of the seven members of [TaskState] (the broker's [RETRY], for
    one), [get_task_status] raises the [ValueError] of the enum lookup
    instead of returning a status, and does nothing else. *)
Theorem get_task_status_unknown_state_raises `{RT : PyRuntime}
    (s : Config.Settings) (task_id : string) (w : World) :
  Celery.state (backend w) task_id ∉ map Models.value Models.members ->
  TaskManager.get_task_status s task_id w = Raise (LibError "ValueError") w.
Proof.
  intros Hraw. unfold TaskManager.get_task_status.
  by rewrite (of_value_None _ Hraw).
Qed.

Lemma get_task_status_unknown_state_raises_witness :
  Celery.state (backend (Fixtures.world "RETRY" PyNone 0)) "t1" = "RETRY" /\
  TaskManager.get_task_status (RT := Fixtures.runtime) Config.defaults "t1"
    (Fixtures.world "RETRY" PyNone 0)
  = Raise (LibError "ValueError") (Fixtures.world "RETRY" PyNone 0).
Proof.
  split; [reflexivity|].
  apply (get_task_status_unknown_state_raises (RT := Fixtures.runtime)).
  apply (bool_decide_unpack _). vm_compute. exact I.
Defined.

(** C5, as the code has it.  When the state string read from the result
    store is the value of a member of [TaskState] other than [PENDING], the
    call returns a status with that state and changes nothing in the world;
    [result] is the stored result when the state is [SUCCESS] and [None]
    otherwise; [error] is the printed payload when the state is [FAILURE]
    and [None] otherwise, so it is populated exactly in state [FAILURE]
    (not in [TIMEOUT] or [REVOKED]). *)
Theorem get_task_status_passes_state_through `{RT : PyRuntime}
    (s : Config.Settings) (task_id : string) (w : World) (st : Models.TaskState) :
  Celery.state (backend w) task_id = Models.value st ->
  st <> Models.PENDING ->
  exists status,
    TaskManager.get_task_status s task_id w = Ok status w /\
    Models.task_id status = task_id /\
    Models.state status = st /\
    Models.result status =
      (if decide (st = Models.SUCCESS) then Celery.info (backend w) task_id else PyNone) /\
    Models.error status =
      (if decide (st = Models.FAILURE)
       then Some (py_str (Celery.info (backend w) task_id)) else None) /\
    (is_Some (Models.error status) <-> st = Models.FAILURE).
Proof.
  intros Hstate Hne. eexists. split; [by apply get_task_status_other|].
  cbn. repeat split; try reflexivity.
  - destruct (decide (st = Models.FAILURE)); [done|]. by intros [? ?].
  - intros ->. rewrite decide_True by done. eauto.
Qed.

Lemma get_task_status_passes_state_through_witness :
  exists status,
    TaskManager.get_task_status (RT := Fixtures.runtime) Config.defaults "t1"
      (Fixtures.world "FAILURE" (PyExc "boom") 0)
    = Ok status (Fixtures.world "FAILURE" (PyExc "boom") 0) /\
    Models.state status = Models.FAILURE /\
    Models.result status = PyNone /\
    Models.error status = Some "boom".
Proof.
  destruct (get_task_status_passes_state_through (RT := Fixtures.runtime)
              Config.defaults "t1" (Fixtures.world "FAILURE" (PyExc "boom") 0)
              Models.FAILURE)
    as (status & Hcall & _ & Hst & Hres & Herr & _).
  - reflexivity.
  - discriminate.
  - exists status. repeat split; assumption.
Defined.

(** C5 as stated fails: a task whose stored state is [REVOKED] gets a
    status with no error, although the claim wants [error] populated in
    every one of [FAILURE], [TIMEOUT] and [REVOKED]. *)
Lemma get_task_status_revoked_has_no_error :
  exists status w',
    TaskManager.get_task_status (RT := Fixtures.runtime) Config.defaults "t1"
      (Fixtures.world "REVOKED" PyNone 0) = Ok status w' /\
    Models.state status = Models.REVOKED /\
    ~ (is_Some (Models.error status) <->
       Models.state status ∈ [Models.FAILURE; Models.TIMEOUT; Models.REVOKED]).
Proof.
  eexists _, _. split; [reflexivity|]. split; [reflexivity|].
  cbn. intros [_ Hback].
  destruct Hback as [e He]; [set_solver|discriminate].
Qed.

(** C2, as the code has it.  When the stored state is [PENDING], the
    payload carries a [submitted_at] that is a string in ISO format without
    a UTC offset (one [fromisoformat] parses to a naive instant), and the
    wait since then exceeds [task_queue_timeout], the call returns a status
    in state [TIMEOUT] whose error message names the wait, has sent one
    revoke request with [terminate=True] for the task id, and has made one
    call of [notify_admin_timeout] for it. *)
Theorem get_task_status_queue_timeout `{RT : PyRuntime}
    (s : Config.Settings) (task_id : string) (w : World) (submitted : Z) :
  overdue s task_id w submitted ->
  exists status w',
    TaskManager.get_task_status s task_id w = Ok status w' /\
    Models.state status = Models.TIMEOUT /\
    Models.error status =
      Some ("Task timeout after " +:+ format_1f (now w - submitted) +:+ "s in queue") /\
    revoked w' = (revoked w ++ [(task_id, true)])%list /\
    Notification.calls (outbox w') =
      (Notification.calls (outbox w) ++ [(task_id, now w - submitted)])%list.
Proof.
  intros Hover.
  destruct (get_task_status_overdue s task_id w submitted Hover)
    as (status & w' & Hcall & -> & _ & _ & Hrev & Hcalls).
  eexists _, w'. split; [exact Hcall|]. by repeat split.
Qed.

Lemma stale_overdue : overdue (RT := Fixtures.runtime) Config.defaults "t1" Fixtures.stale 0.
Proof.
  split; [reflexivity|]. split; [|vm_compute; reflexivity].
  exists "1970-01-01T00:00:00". split; reflexivity.
Defined.

Lemma get_task_status_queue_timeout_witness :
  exists status w',
    TaskManager.get_task_status (RT := Fixtures.runtime) Config.defaults "t1" Fixtures.stale
    = Ok status w' /\
    Models.state status = Models.TIMEOUT /\
    Models.error status = Some "Task timeout after 31.0s in queue" /\
    revoked w' = [("t1", true)] /\
    Notification.calls (outbox w') = [("t1", 31000000)].
Proof.
  exact (get_task_status_queue_timeout (RT := Fixtures.runtime)
           Config.defaults "t1" Fixtures.stale 0 stale_overdue).
Defined.

(** C2 as stated fails for a timestamp that carries a UTC offset: the task
    is [PENDING], its payload has a [submitted_at] 31 seconds in the past,
    above the threshold of 30 seconds, and the call raises the [TypeError]
    of subtracting an aware from a naive [datetime]; no status is returned,
    nothing is revoked and no notification is made. *)
Lemma get_task_status_aware_timestamp_raises :
  let iso := "1970-01-01T00:00:00+00:00" in
  let w := Fixtures.world "PENDING" (PyDict {[ "submitted_at" := FStr iso ]}) 31000000 in
  Celery.state (backend w) "t1" = "PENDING" /\
  dict_get (Celery.info (backend w) "t1") "submitted_at" = Some (FStr iso) /\
  fromisoformat (PyRuntime := Fixtures.runtime) iso = IsoAware 0 /\
  now w - 0 > TaskManager.seconds (Config.task_queue_timeout Config.defaults) /\
  TaskManager.get_task_status (RT := Fixtures.runtime) Config.defaults "t1" w
  = Raise (LibError "TypeError") w /\
  revoked w = [] /\
  Notification.calls (outbox w) = [].
Proof. repeat split; vm_compute; reflexivity. Qed.

(** C1 as stated fails: nothing in [get_task_status] or in
    [notify_admin_timeout] remembers that a task has been reported.  Two
    calls in a row on a task that is still [PENDING] past the threshold make
    two notifications. *)
Lemma timeout_notified_twice :
  notifications_for "t1"
    (polls (RT := Fixtures.runtime) 2 Config.defaults "t1" Fixtures.stale) = 2%nat /\
  ~ (notifications_for "t1"
       (polls (RT := Fixtures.runtime) 2 Config.defaults "t1" Fixtures.stale) <= 1)%nat.
Proof.
  assert (Hn : notifications_for "t1"
                 (polls (RT := Fixtures.runtime) 2 Config.defaults "t1" Fixtures.stale)
               = 2%nat) by (vm_compute; reflexivity).
  split; [exact Hn|]. rewrite Hn. lia.
Qed.

(** C1, as the code has it.  One call of [get_task_status] makes at most one
    timeout notification for the task; there is no guard across calls: as
    long as the task reads as [PENDING] with a wait over the threshold, every
    call makes one more, so [n] calls in a row make [n] notifications. *)
Theorem timeout_notified_once_per_overdue_poll `{RT : PyRuntime}
    (s : Config.Settings) (task_id : string) (w : World) (submitted : Z) (n : nat) :
  overdue s task_id w submitted ->
  notifications_for task_id (polls n s task_id w)
    = (notifications_for task_id w + n)%nat /\
  forall w0 : World,
    (notifications_for task_id (final_state (TaskManager.get_task_status s task_id w0))
     <= notifications_for task_id w0 + 1)%nat.
Proof.
  intros Hover. split.
  - revert w Hover. induction n as [|n IH]; intros w Hover; cbn [polls].
    + lia.
    + destruct (get_task_status_overdue s task_id w submitted Hover)
        as (status & w' & Hcall & _ & Hbe & Hnow & _ & Hcalls).
      rewrite Hcall. cbn [final_state].
      rewrite IH.
      * rewrite (notifications_for_snoc task_id task_id _ w w' Hcalls).
        rewrite decide_True by done. lia.
      * destruct Hover as (Hst & Hsub & Hlate).
        unfold overdue. rewrite Hbe, Hnow. auto.
  - intros w0.
    destruct (get_task_status_calls s task_id w0) as [Hsame | [wait Hsnoc]].
    + unfold notifications_for. rewrite Hsame. lia.
    + rewrite (notifications_for_snoc task_id task_id wait w0 _ Hsnoc).
      rewrite decide_True by done. lia.
Qed.

Lemma timeout_notified_once_per_overdue_poll_witness :
  notifications_for "t1"
    (polls (RT := Fixtures.runtime) 3 Config.defaults "t1" Fixtures.stale) = 3%nat.
Proof.
  exact (proj1 (timeout_notified_once_per_overdue_poll (RT := Fixtures.runtime)
                  Config.defaults "t1" Fixtures.stale 0 3 stale_overdue)).
Defined.

(** ** [submit_subtasks] *)

Section SubmitFacts.

Import Models.



(** With an unregistered name it raises for the first such config, with
    the queue as it was. *)
Lemma collect_signatures_raise (reg : Celery.Registry) (configs : list SubTaskConfig)
    (tasks : list Celery.Signature) (b : Celery.Broker) :
  (exists c, c ∈ configs /\ reg !! name c = None) ->
  exists c,
    c ∈ configs /\ reg !! name c = None /\
    TaskManager.collect_signatures reg configs tasks b
    = Raise (ValueError ("Task " +:+ name c +:+ " not found")) b.
Proof.
  revert tasks. induction configs as [|c configs IH]; intros tasks (bad & Hin & Hbad).
  - by apply elem_of_nil in Hin.
  - cbn [TaskManager.collect_signatures].
    destruct (reg !! name c) as [t|] eqn:Hc.
    + apply elem_of_cons in Hin as [->|Hin]; [congruence|].
      destruct (IH (tasks ++ [Celery.signature t (args c) (kwargs c) (priority c)
                                (queue c) (timeout c)])%list)
        as (c' & Hin' & Hnone & Hrun); [by eauto|].
      exists c'. split; [by apply elem_of_cons; right|]. by split.
    + exists c. split; [by apply elem_of_cons; left|]. by split.
Qed.



End SubmitFacts.

(** C3.  When the name of some config is not in the task registry,
    [submit_subtasks] raises the not-found [ValueError] for such a config and
    the queue is exactly as before the call: nothing has been published for
    any config, in either mode. *)
Theorem submit_subtasks_unknown_name_enqueues_nothing
    (reg : Celery.Registry) (parent_task_id : string)
    (configs : list Models.SubTaskConfig) (parallel : bool) (b : Celery.Broker) :
  (exists c, c ∈ configs /\ reg !! Models.name c = None) ->
  exists c,
    c ∈ configs /\ reg !! Models.name c = None /\
    TaskManager.submit_subtasks reg parent_task_id configs parallel b
    = Raise (ValueError ("Task " +:+ Models.name c +:+ " not found")) b.
Proof.
  intros Hbad.
  destruct (collect_signatures_raise reg configs [] b Hbad) as (c & Hin & Hnone & Hrun).
  exists c. split; [done|]. split; [done|].
  unfold TaskManager.submit_subtasks, bind. by rewrite Hrun.
Qed.

Lemma submit_subtasks_unknown_name_enqueues_nothing_witness :
  exists c,
    c ∈ [Fixtures.config "classify_image"; Fixtures.config "nonexistent_task";
         Fixtures.config "encode_result"] /\
    Fixtures.registry !! Models.name c = None /\
    TaskManager.submit_subtasks Fixtures.registry "parent"
      [Fixtures.config "classify_image"; Fixtures.config "nonexistent_task";
       Fixtures.config "encode_result"] true Fixtures.empty_broker
    = Raise (ValueError ("Task " +:+ Models.name c +:+ " not found")) Fixtures.empty_broker.
Proof.
  apply submit_subtasks_unknown_name_enqueues_nothing.
  exists (Fixtures.config "nonexistent_task"). split; [|reflexivity].
  apply elem_of_cons; right. apply elem_of_cons; left. reflexivity.
Defined.



(** The same three configs in sequential mode: one message, for the first
    stage, carrying the two later stages; the id returned is that of the
    third stage. *)
Example submit_subtasks_sequential_chain :
  exists b' sig0 stage1 sig2,
    TaskManager.submit_subtasks Fixtures.registry "parent"
      [Fixtures.config "classify_image"; Fixtures.config "encode_result";
       Fixtures.config "classify_image"] false Fixtures.empty_broker
    = Ok ["task-2"] b' /\
    Celery.published b' =
      [{| Celery.msg_id := "task-0"; Celery.msg_sig := sig0;
          Celery.msg_chain := [stage1; ("task-2", sig2)] |}].
Proof. eexists _, _, _, _. split; vm_compute; reflexivity. Qed.


(** ** [wait_for_task] *)

Section WaitFacts.

Context `{RT : PyRuntime} `{SC : Scheduler}.
Import Models.


Lemma is_done_set_timeout (status : TaskStatus) (err : string) :
  TaskManager.is_done (state (set_state_error status TIMEOUT err)) = true.
Proof. reflexivity. Qed.

(** Whatever the loop returns is terminal. *)
Lemma wait_loop_returns_done (fuel : nat) (s : Config.Settings) (task_id : string)
    (timeout : option Z) (poll_interval start_time : Z) (w : World)
    (status : TaskStatus) (w' : World) :
  TaskManager.wait_loop fuel s task_id timeout poll_interval start_time w
    = Some (Ok status w') ->
  TaskManager.is_done (state status) = true.
Proof.
  revert w. induction fuel as [|fuel IH]; intros w; cbn [TaskManager.wait_loop]; [done|].
  destruct (TaskManager.get_task_status s task_id w) as [st w1|e w1]; [|done].
  destruct (TaskManager.is_done (state st)) eqn:Hdone.
  - intros [= <- <-]. exact Hdone.
  - destruct (TaskManager.timed_out timeout (now w1 - start_time)).
    + intros [= <- <-]. apply is_done_set_timeout.
    + destruct (Z.ltb poll_interval 0); [done|apply IH].
Qed.







End WaitFacts.




(** The deadline is looked at only after a poll that was not terminal.  Here
    the timeout is 0.2 s and the caller sleeps 0.3 s between polls; the task
    succeeds at 0.25 s, after the deadline and before the second poll, and
    the call returns [SUCCESS]. *)
Example wait_for_task_late_success :
  exists w',
    TaskManager.wait_for_task (RT := Fixtures.runtime) (SC := Fixtures.working) 2
      Config.defaults "t1" (Some 200000) 300000 (Fixtures.world "PENDING" PyNone 0)
    = Some (Ok (Models.mk_status "t1" Models.SUCCESS (PyOther "done") None) w') /\
    now w' - 0 > 200000.
Proof. eexists. split; [vm_compute; reflexivity|]. vm_compute. reflexivity. Qed.




(** A task that goes from [PENDING] through [STARTED] to [SUCCESS] while the
    caller polls every 0.1 s: the call returns the [SUCCESS] status with the
    stored result, at the fourth poll. *)
Example wait_for_task_returns_final_status :
  exists w',
    TaskManager.wait_for_task (RT := Fixtures.runtime) (SC := Fixtures.working) 4
      Config.defaults "t1" (Some 5000000) 100000 (Fixtures.world "PENDING" PyNone 0)
    = Some (Ok (Models.mk_status "t1" Models.SUCCESS (PyOther "done") None) w') /\
    TaskManager.wait_for_task (RT := Fixtures.runtime) (SC := Fixtures.working) 3
      Config.defaults "t1" (Some 5000000) 100000 (Fixtures.world "PENDING" PyNone 0)
    = None.
Proof. eexists. split; vm_compute; reflexivity. Qed.

(** ** The scratch directory *)

Section StorageFacts.

Import Storage.

Lemma lookup_path_app (n : Node) (p q : Path) :
  lookup_path n (p ++ q)%list =
  match lookup_path n p with
  | Some n' => lookup_path n' q
  | None => None
  end.
Proof.
  revert n. induction p as [|c p IH]; intros n; [reflexivity|].
  cbn [app lookup_path]. destruct n as [|es]; [done|].
  destruct (es !! c); [apply IH|done].
Qed.

Lemma lookup_path_empty_dir (p : Path) :
  p <> [] -> lookup_path (Dir ∅) p = None.
Proof. destruct p as [|c p]; [done|]. intros _. cbn. by rewrite lookup_empty. Qed.

Lemma rmtree_cons (c : string) (p : Path) (es : gmap string Node) :
  p <> [] ->
  rmtree (c :: p) (Dir es) =
  match es !! c with
  | Some child =>
      match rmtree p child with
      | Some child' => Some (Dir (<[c := child']> es))
      | None => None
      end
  | None => None
  end.
Proof. destruct p; [done|reflexivity]. Qed.

(** [mkdir_p] ends with a directory at the path. *)
Lemma mkdir_p_makes_dir (p : Path) (n n1 : Node) :
  mkdir_p p n = Some n1 -> exists es, lookup_path n1 p = Some (Dir es).
Proof.
  revert n n1. induction p as [|c p IH]; intros [|es0] n1; cbn [mkdir_p]; try done.
  - intros [= <-]. by exists es0.
  - destruct (mkdir_p p (default (Dir ∅) (es0 !! c))) as [child|] eqn:Hchild; [|done].
    intros [= <-]. cbn [lookup_path]. rewrite lookup_insert_eq. by eapply IH.
Qed.

(** On a directory that exists it changes nothing. *)
Lemma mkdir_p_existing (p : Path) (n : Node) (es : gmap string Node) :
  lookup_path n p = Some (Dir es) -> mkdir_p p n = Some n.
Proof.
  revert n. induction p as [|c p IH]; intros [|es0]; cbn [lookup_path mkdir_p]; try done.
  destruct (es0 !! c) as [child|] eqn:Hc; [|done].
  intros Hchild. cbn [from_option id]. rewrite (IH _ Hchild). by rewrite insert_id.
Qed.

(** A directory can be removed; nothing is left at or below its path. *)
Lemma rmtree_dir (root : Path) (c : string) (n : Node) (es : gmap string Node) :
  lookup_path n (root ++ [c])%list = Some (Dir es) ->
  exists n', rmtree (root ++ [c])%list n = Some n'.
Proof.
  revert n. induction root as [|r root IH]; intros [|es0]; cbn [app lookup_path]; try done.
  - destruct (es0 !! c) as [child|] eqn:Hc; [|done].
    intros [= ->]. cbn [rmtree]. rewrite Hc. eauto.
  - destruct (es0 !! r) as [child|] eqn:Hr; [|done].
    intros Hchild. rewrite rmtree_cons by (by destruct root). rewrite Hr.
    destruct (IH _ Hchild) as (child' & ->). eauto.
Qed.

Lemma rmtree_gone (root : Path) (c : string) (n n' : Node) :
  rmtree (root ++ [c])%list n = Some n' ->
  exists es, lookup_path n' root = Some (Dir es) /\ es !! c = None.
Proof.
  revert n n'. induction root as [|r root IH]; intros [|es0] n'; try done.
  - cbn [app rmtree]. destruct (es0 !! c) as [[|d]|]; try done.
    intros [= <-]. eexists. split; [reflexivity|]. apply lookup_delete_eq.
  - cbn [app]. rewrite rmtree_cons by (by destruct root).
    destruct (es0 !! r) as [child|]; [|done].
    destruct (rmtree (root ++ [c])%list child) as [child'|] eqn:Hrm; [|done].
    intros [= <-]. cbn [lookup_path]. rewrite lookup_insert_eq. by eapply IH.
Qed.

(** Creating an absent directory under an existing parent and removing it
    again gives back the file system one started from. *)
Lemma rmtree_mkdir_p_absent (root : Path) (c : string) (n : Node)
    (es : gmap string Node) :
  lookup_path n root = Some (Dir es) -> es !! c = None ->
  exists n1, mkdir_p (root ++ [c])%list n = Some n1 /\
             rmtree (root ++ [c])%list n1 = Some n.
Proof.
  revert n. induction root as [|r root IH]; intros [|es0]; cbn [lookup_path]; try done.
  - intros [= ->] Hc. cbn [app mkdir_p]. rewrite Hc. cbn [from_option id mkdir_p].
    eexists. split; [reflexivity|]. cbn [rmtree]. rewrite lookup_insert_eq.
    by rewrite delete_insert_eq, delete_id.
  - destruct (es0 !! r) as [child|] eqn:Hr; [|done].
    intros Hchild Hc. destruct (IH _ Hchild Hc) as (child1 & Hmk & Hrm).
    cbn [app mkdir_p]. rewrite Hr. cbn [from_option id]. rewrite Hmk.
    eexists. split; [reflexivity|].
    rewrite rmtree_cons by (by destruct root).
    rewrite lookup_insert_eq, Hrm. by rewrite insert_insert_eq, insert_id.
Qed.

(** Neither operation touches what lives under another name in the same
    parent directory. *)
Lemma mkdir_p_sibling (root : Path) (c c' : string) (q : Path) (n n1 : Node) :
  c' <> c ->
  mkdir_p (root ++ [c])%list n = Some n1 ->
  lookup_path n1 (root ++ c' :: q)%list = lookup_path n (root ++ c' :: q)%list.
Proof.
  intros Hne. revert n n1.
  induction root as [|r root IH]; intros [|es0] n1; cbn [app mkdir_p]; try done.
  - destruct (default (Dir ∅) (es0 !! c)) as [|d]; [done|].
    intros [= <-]. cbn [lookup_path]. by rewrite lookup_insert_ne.
  - destruct (mkdir_p (root ++ [c])%list (default (Dir ∅) (es0 !! r)))
      as [child|] eqn:Hmk; [|done].
    intros [= <-]. cbn [lookup_path]. rewrite lookup_insert_eq.
    rewrite (IH _ _ Hmk).
    destruct (es0 !! r); [reflexivity|].
    apply lookup_path_empty_dir. by destruct root.
Qed.

Lemma rmtree_sibling (root : Path) (c c' : string) (q : Path) (n n' : Node) :
  c' <> c ->
  rmtree (root ++ [c])%list n = Some n' ->
  lookup_path n' (root ++ c' :: q)%list = lookup_path n (root ++ c' :: q)%list.
Proof.
  intros Hne. revert n n'.
  induction root as [|r root IH]; intros [|es0] n'; try done.
  - cbn [app rmtree]. destruct (es0 !! c) as [[|d]|]; try done.
    intros [= <-]. cbn [lookup_path]. by rewrite lookup_delete_ne.
  - cbn [app]. rewrite rmtree_cons by (by destruct root).
    destruct (es0 !! r) as [child|] eqn:Hr; [|done].
    destruct (rmtree (root ++ [c])%list child) as [child'|] eqn:Hrm; [|done].
    intros [= <-]. cbn [lookup_path]. rewrite lookup_insert_eq, Hr.
    by apply IH.
Qed.

(** A regular file on the way stops [mkdir_p]. *)
Lemma mkdir_p_through_file (root p : Path) (n : Node) (data : list Byte.byte) :
  lookup_path n root = Some (File data) -> mkdir_p (root ++ p)%list n = None.
Proof.
  revert n. induction root as [|r root IH]; intros [|es0]; cbn [lookup_path]; try done.
  - intros _. by destruct p.
  - destruct (es0 !! r) as [child|] eqn:Hr; [|done].
    intros Hchild. cbn [app mkdir_p]. rewrite Hr. cbn [from_option id].
    by rewrite (IH _ Hchild).
Qed.

(** [cleanup_task] when the directory cannot be made: the error is
    swallowed and the file system is as before. *)
Lemma cleanup_task_failure (s : Config.Settings) (task_id : string) (fs : Node) :
  mkdir_p (task_path s task_id) fs = None ->
  TaskManager.cleanup_task s task_id fs = Ok tt fs.
Proof.
  intros Hmk.
  unfold TaskManager.cleanup_task, try_except_log, bind, get_task_dir, bind, os_call.
  by rewrite Hmk.
Qed.

(** [cleanup_task] when the directory can be made: it is then removed. *)
Lemma cleanup_task_success (s : Config.Settings) (task_id : string) (fs fs1 : Node) :
  mkdir_p (task_path s task_id) fs = Some fs1 ->
  exists fs2,
    rmtree (task_path s task_id) fs1 = Some fs2 /\
    TaskManager.cleanup_task s task_id fs = Ok tt fs2.
Proof.
  unfold task_path. intros Hmk.
  destruct (mkdir_p_makes_dir _ _ _ Hmk) as (es & Hdir).
  destruct (rmtree_dir _ _ _ _ Hdir) as (fs2 & Hrm).
  exists fs2. split; [exact Hrm|].
  unfold TaskManager.cleanup_task, try_except_log, bind, get_task_dir, bind, os_call,
    ret, cleanup_task_dir, exists_, task_path.
  rewrite Hmk. rewrite bool_decide_eq_true_2 by (rewrite Hdir; eauto).
  unfold os_call. by rewrite Hrm.
Qed.

End StorageFacts.

(** C7, as the code has it.  [cleanup_task] never raises, whatever the id.
    For a task id that is a plain name: when the task's scratch directory
    exists, nothing is left at its path or anywhere below it afterwards;
    calling it again leaves the file system exactly as the first call left
    it; on an id whose directory is absent the directory is still absent
    afterwards, and the file system is unchanged provided the scratch root
    exists; the directories of other plain ids are never touched. *)
Theorem cleanup_task_removes_directory_and_never_fails
    (s : Config.Settings) (task_id : string) (fs : Storage.Node) :
  exists fs',
    TaskManager.cleanup_task s task_id fs = Ok tt fs' /\
    (plain_name task_id = true ->
     ((exists es, Storage.lookup_path fs (Storage.task_path s task_id)
                  = Some (Storage.Dir es)) ->
      forall q, Storage.lookup_path fs' (Storage.task_path s task_id ++ q)%list = None) /\
     TaskManager.cleanup_task s task_id fs' = Ok tt fs' /\
     (Storage.lookup_path fs (Storage.task_path s task_id) = None ->
      Storage.lookup_path fs' (Storage.task_path s task_id) = None /\
      (is_Some (Storage.lookup_path fs (Config.shared_tmp_path s)) -> fs' = fs)) /\
     (forall other q, plain_name other = true -> other <> task_id ->
        Storage.lookup_path fs' (Storage.task_path s other ++ q)%list
        = Storage.lookup_path fs (Storage.task_path s other ++ q)%list)).
Proof.
  destruct (Storage.mkdir_p (Storage.task_path s task_id) fs) as [fs1|] eqn:Hmk.
  - destruct (cleanup_task_success s task_id fs fs1 Hmk) as (fs2 & Hrm & Hrun).
    destruct (rmtree_gone _ _ _ _ Hrm) as (es' & Hroot' & Hgone).
    assert (Habsent : forall q,
      Storage.lookup_path fs2 (Storage.task_path s task_id ++ q)%list = None).
    { intros q. unfold Storage.task_path.
      rewrite !lookup_path_app, Hroot'. cbn. by rewrite Hgone. }
    exists fs2. split; [exact Hrun|]. intros _.
    split; [by intros _|]. split; [|split].
    + destruct (rmtree_mkdir_p_absent _ _ _ _ Hroot' Hgone) as (n1 & Hmk' & Hrm').
      destruct (cleanup_task_success s task_id fs2 n1 Hmk') as (fs3 & Hrm3 & Hrun3).
      unfold Storage.task_path in Hrm3. rewrite Hrm' in Hrm3. by injection Hrm3 as <-.
    + intros Hnone. split.
      * specialize (Habsent []). by rewrite app_nil_r in Habsent.
      * intros [root Hroot]. destruct root as [data|es].
        { unfold Storage.task_path in Hmk.
          by rewrite (mkdir_p_through_file _ _ _ _ Hroot) in Hmk. }
        unfold Storage.task_path in Hnone.
        rewrite lookup_path_app, Hroot in Hnone. cbn in Hnone.
        assert (Hc : es !! task_id = None) by (by destruct (es !! task_id)).
        destruct (rmtree_mkdir_p_absent _ _ _ _ Hroot Hc) as (n1 & Hmk' & Hrm').
        unfold Storage.task_path in Hmk, Hrm. congruence.
    + intros other q _ Hne. unfold Storage.task_path in *.
      rewrite <- !app_assoc. cbn [app].
      rewrite (rmtree_sibling _ _ _ _ _ _ Hne Hrm).
      by rewrite (mkdir_p_sibling _ _ _ _ _ _ Hne Hmk).
  - exists fs. split; [by apply cleanup_task_failure|]. intros _.
    split; [|split; [|split]].
    + intros (es & Hdir). by rewrite (mkdir_p_existing _ _ _ Hdir) in Hmk.
    + by apply cleanup_task_failure.
    + by intros Hnone.
    + done.
Qed.

Lemma cleanup_task_removes_directory_and_never_fails_witness :
  plain_name "task-a" = true /\
  (exists es, Storage.lookup_path Fixtures.disk (Storage.task_path Config.defaults "task-a")
              = Some (Storage.Dir es)) /\
  exists fs',
    TaskManager.cleanup_task Config.defaults "task-a" Fixtures.disk = Ok tt fs' /\
    (forall q, Storage.lookup_path fs'
                 (Storage.task_path Config.defaults "task-a" ++ q)%list = None) /\
    TaskManager.cleanup_task Config.defaults "task-a" fs' = Ok tt fs'.
Proof.
  assert (Hdir : exists es,
    Storage.lookup_path Fixtures.disk (Storage.task_path Config.defaults "task-a")
    = Some (Storage.Dir es)) by (eexists; vm_compute; reflexivity).
  split; [reflexivity|]. split; [exact Hdir|].
  destruct (cleanup_task_removes_directory_and_never_fails Config.defaults "task-a"
              Fixtures.disk) as (fs' & Hrun & Hplain).
  destruct (Hplain eq_refl) as (Hgone & Hagain & _).
  exists fs'. split; [exact Hrun|]. split; [exact (Hgone Hdir)|exact Hagain].
Defined.

(** C7 as stated fails where it calls clean-up of an absent directory a
    no-op: [get_task_dir] runs [mkdir(parents=True)] before anything is
    removed, so on a disk where the scratch root is missing, clean-up of an
    id that has no directory creates the root and leaves it there. *)
Lemma cleanup_task_absent_id_creates_root :
  plain_name "task-a" = true /\
  Storage.lookup_path (Fixtures.under ["tmp"] (Storage.Dir ∅))
    (Storage.task_path Config.defaults "task-a") = None /\
  Storage.lookup_path (Fixtures.under ["tmp"] (Storage.Dir ∅))
    (Config.shared_tmp_path Config.defaults) = None /\
  exists fs',
    TaskManager.cleanup_task Config.defaults "task-a" (Fixtures.under ["tmp"] (Storage.Dir ∅))
      = Ok tt fs' /\
    Storage.lookup_path fs' (Config.shared_tmp_path Config.defaults)
      = Some (Storage.Dir ∅) /\
    fs' <> Fixtures.under ["tmp"] (Storage.Dir ∅).
Proof.
  split; [reflexivity|]. split; [vm_compute; reflexivity|].
  split; [vm_compute; reflexivity|].
  eexists. split; [vm_compute; reflexivity|]. split; [vm_compute; reflexivity|].
  intros Heq. apply (f_equal (fun n => Storage.lookup_path n ["tmp"; "shared"])) in Heq.
  vm_compute in Heq. discriminate Heq.
Qed.

(** The task directory with its three files, one of them nested, goes as a
    whole; the neighbour stays; a second call changes nothing. *)
Example cleanup_task_on_disk :
  TaskManager.cleanup_task Config.defaults "task-a" Fixtures.disk
    = Ok tt Fixtures.disk_without_a /\
  TaskManager.cleanup_task Config.defaults "task-a" Fixtures.disk_without_a
    = Ok tt Fixtures.disk_without_a /\
  Storage.lookup_path Fixtures.disk ["tmp"; "shared"; "tasks"; "task-a"; "out"; "result.jpg"]
    = Some (Storage.File ["z"%byte]) /\
  Storage.lookup_path Fixtures.disk_without_a ["tmp"; "shared"; "tasks"; "task-a"] = None.
Proof. repeat split; vm_compute; reflexivity. Qed.

(** When the path of the task directory is taken by a regular file,
    [get_task_dir] raises and [cleanup_task] swallows the error. *)
Example cleanup_task_swallows_error :
  Storage.get_task_dir Config.defaults "task-a" Fixtures.disk_with_file
    = Raise (LibError "OSError") Fixtures.disk_with_file /\
  TaskManager.cleanup_task Config.defaults "task-a" Fixtures.disk_with_file
    = Ok tt Fixtures.disk_with_file.
Proof. split; vm_compute; reflexivity. Qed.

(** ** Routing of the GPU stage *)

(** C8.  A category other than ["general"], ["portrait"] and ["landscape"]
    is routed to [queue_gpu_general] and to the task
    ["gpu_inference_general"], without an error.  Each of the three known
    categories is routed to the queue the settings name for it and to its own
    task; the three tasks differ from one another, and so do the three
    queues under the default settings. *)
Theorem gpu_routing_falls_back_to_general (s : Config.Settings) (category : string) :
  category ∉ ["general"; "portrait"; "landscape"] ->
  (Pipeline.gpu_queue s category = Config.queue_gpu_general s /\
   Pipeline.gpu_task_name category = "gpu_inference_general") /\
  (Pipeline.gpu_queue s "general" = Config.queue_gpu_general s /\
   Pipeline.gpu_queue s "portrait" = Config.queue_gpu_portrait s /\
   Pipeline.gpu_queue s "landscape" = Config.queue_gpu_landscape s) /\
  (Pipeline.gpu_task_name "general" = "gpu_inference_general" /\
   Pipeline.gpu_task_name "portrait" = "gpu_inference_portrait" /\
   Pipeline.gpu_task_name "landscape" = "gpu_inference_landscape") /\
  NoDup (Pipeline.gpu_task_name <$> ["general"; "portrait"; "landscape"]) /\
  NoDup (Pipeline.gpu_queue Config.defaults <$> ["general"; "portrait"; "landscape"]).
Proof.
  intros Hunknown.
  apply not_elem_of_cons in Hunknown as [Hg Hunknown].
  apply not_elem_of_cons in Hunknown as [Hp Hunknown].
  apply not_elem_of_cons in Hunknown as [Hl _].
  split; [|split; [|split; [|split]]].
  - unfold Pipeline.gpu_queue, Pipeline.gpu_task_name, Pipeline.gpu_queue_map,
      Pipeline.gpu_task_map.
    by rewrite !lookup_insert_ne, !lookup_empty.
  - repeat split; vm_compute; reflexivity.
  - repeat split; vm_compute; reflexivity.
  - apply (bool_decide_unpack _). vm_compute. exact I.
  - apply (bool_decide_unpack _). vm_compute. exact I.
Qed.

Lemma gpu_routing_falls_back_to_general_witness :
  ("animal" ∉ ["general"; "portrait"; "landscape"]) /\
  Pipeline.gpu_queue Config.defaults "animal" = "gpu-general" /\
  Pipeline.gpu_task_name "animal" = "gpu_inference_general".
Proof.
  assert (Hunknown : "animal" ∉ ["general"; "portrait"; "landscape"])
    by (apply (bool_decide_unpack _); vm_compute; exact I).
  split; [exact Hunknown|].
  exact (proj1 (gpu_routing_falls_back_to_general Config.defaults "animal" Hunknown)).
Defined.

(** ** Files in the scratch directory *)

Section FileFacts.

Import Storage.

Lemma write_bytes_cons (c : string) (p : Path) (data : list Byte.byte)
    (es : gmap string Node) :
  p <> [] ->
  write_bytes (c :: p) data (Dir es) =
  match es !! c with
  | Some child =>
      match write_bytes p data child with
      | Some child' => Some (Dir (<[c := child']> es))
      | None => None
      end
  | None => None
  end.
Proof. destruct p; [done|reflexivity]. Qed.

(** After a write the file is there, in a directory. *)
Lemma write_bytes_lookup (p : Path) (f : string) (data : list Byte.byte) (n n1 : Node) :
  write_bytes (p ++ [f])%list data n = Some n1 ->
  lookup_path n1 (p ++ [f])%list = Some (File data) /\
  exists es, lookup_path n1 p = Some (Dir es).
Proof.
  revert n n1. induction p as [|c p IH]; intros [|es0] n1; try done.
  - cbn [app write_bytes].
    assert (Hgoal : Dir (<[f := File data]> es0) = n1 ->
      lookup_path n1 [f] = Some (File data) /\ exists es, lookup_path n1 [] = Some (Dir es)).
    { intros <-. cbn. rewrite lookup_insert_eq. eauto. }
    destruct (es0 !! f) as [[|d]|]; try done; intros [= H]; by apply Hgoal.
  - cbn [app]. rewrite write_bytes_cons by (by destruct p).
    destruct (es0 !! c) as [child|]; [|done].
    destruct (write_bytes (p ++ [f])%list data child) as [child'|] eqn:Hw; [|done].
    intros [= <-]. cbn [lookup_path]. rewrite lookup_insert_eq. apply (IH _ _ Hw).
Qed.

(** A write changes nothing at a path that does not lead to the file. *)
Lemma write_bytes_frame (p q : Path) (data : list Byte.byte) (n n1 : Node) :
  write_bytes p data n = Some n1 ->
  ~ q `prefix_of` p ->
  lookup_path n1 q = lookup_path n q.
Proof.
  revert q n n1. induction p as [|c p IH]; intros q [|es0] n1; try done.
  destruct q as [|c' q]; [intros _ Hq; destruct Hq; apply prefix_nil|].
  destruct (decide (p = [])) as [->|Hp].
  - cbn [write_bytes]. intros Hw Hq.
    assert (Hnew : n1 = Dir (<[c := File data]> es0) /\
                   forall d, es0 !! c <> Some (Dir d)).
    { destruct (es0 !! c) as [[|d]|]; try done; injection Hw as <-; by split. }
    destruct Hnew as [-> Hnodir]. cbn [lookup_path].
    destruct (decide (c = c')) as [<-|Hne].
    + rewrite lookup_insert_eq.
      destruct q as [|c'' q]; [by destruct Hq|].
      cbn. destruct (es0 !! c) as [[|d]|] eqn:Hc; try done.
      all: by destruct (Hnodir d).
    + by rewrite lookup_insert_ne.
  - rewrite write_bytes_cons by done.
    destruct (es0 !! c) as [child|] eqn:Hc; [|done].
    destruct (write_bytes p data child) as [child'|] eqn:Hw; [|done].
    intros [= <-] Hq. cbn [lookup_path].
    destruct (decide (c = c')) as [<-|Hne].
    + rewrite lookup_insert_eq, Hc. apply (IH _ _ _ Hw).
      intros Hpre. apply Hq. by apply prefix_cons.
    + by rewrite lookup_insert_ne.
Qed.

(** [mkdir_p] changes nothing at a path that does not lead to the
    directory. *)
Lemma mkdir_p_frame (p q : Path) (n n1 : Node) :
  mkdir_p p n = Some n1 ->
  ~ q `prefix_of` p ->
  lookup_path n1 q = lookup_path n q.
Proof.
  revert q n n1. induction p as [|c p IH]; intros q [|es0] n1; cbn [mkdir_p]; try done.
  - by intros [= <-].
  - destruct (mkdir_p p (default (Dir ∅) (es0 !! c))) as [child|] eqn:Hmk; [|done].
    intros [= <-] Hq.
    destruct q as [|c' q]; [destruct Hq; apply prefix_nil|].
    cbn [lookup_path]. destruct (decide (c = c')) as [<-|Hne].
    + rewrite lookup_insert_eq.
      rewrite (IH q _ _ Hmk) by (intros Hpre; apply Hq; by apply prefix_cons).
      destruct (es0 !! c); [reflexivity|].
      apply lookup_path_empty_dir. intros ->. apply Hq. apply prefix_cons, prefix_nil.
    + by rewrite lookup_insert_ne.
Qed.

(** Under an existing parent a missing directory is made, empty. *)
Lemma mkdir_p_fresh (root : Path) (c : string) (n : Node) (es : gmap string Node) :
  lookup_path n root = Some (Dir es) -> es !! c = None ->
  exists n1, mkdir_p (root ++ [c])%list n = Some n1 /\
             lookup_path n1 (root ++ [c])%list = Some (Dir ∅).
Proof.
  revert n. induction root as [|r root IH]; intros [|es0]; cbn [lookup_path]; try done.
  - intros [= ->] Hc. cbn [app mkdir_p]. rewrite Hc. cbn [from_option id mkdir_p].
    eexists. split; [reflexivity|]. cbn. by rewrite lookup_insert_eq.
  - destruct (es0 !! r) as [child|] eqn:Hr; [|done].
    intros Hchild Hc. destruct (IH _ Hchild Hc) as (child1 & Hmk & Hlook).
    cbn [app mkdir_p]. rewrite Hr. cbn [from_option id]. rewrite Hmk.
    eexists. split; [reflexivity|]. cbn [lookup_path]. by rewrite lookup_insert_eq.
Qed.

(** What a successful [save_task_data] did. *)
Lemma save_task_data_inv (s : Config.Settings) (task_id filename : string)
    (data : list Byte.byte) (fs fs1 : Node) :
  save_task_data s task_id filename data fs = Ok tt fs1 ->
  exists fs0,
    mkdir_p (task_path s task_id) fs = Some fs0 /\
    write_bytes (task_path s task_id ++ [filename])%list data fs0 = Some fs1.
Proof.
  unfold save_task_data, get_task_file_path, get_task_dir, bind, ret, os_call.
  destruct (mkdir_p (task_path s task_id) fs) as [fs0|]; [|done].
  destruct (write_bytes _ data fs0) as [fs1'|] eqn:Hw; [|done].
  intros [= <-]. eauto.
Qed.

(** [load_task_data] on a file system where the task directory exists. *)
Lemma load_task_data_existing (s : Config.Settings) (task_id filename : string)
    (fs : Node) (es : gmap string Node) :
  lookup_path fs (task_path s task_id) = Some (Dir es) ->
  load_task_data s task_id filename fs =
  match read_bytes (task_path s task_id ++ [filename])%list fs with
  | Some data => Ok data fs
  | None => Raise (LibError "OSError") fs
  end.
Proof.
  intros Hdir.
  unfold load_task_data, get_task_file_path, get_task_dir, bind, ret, os_call.
  by rewrite (mkdir_p_existing _ _ _ Hdir).
Qed.

Lemma task_file_not_prefix (s : Config.Settings) (a f b : string) (g : list string) :
  ~ (task_path s a ++ f :: g)%list `prefix_of` task_path s b.
Proof.
  unfold task_path. intros [k Hk].
  apply (f_equal length) in Hk. rewrite !length_app in Hk. cbn in Hk. lia.
Qed.

Lemma task_file_prefix_eq (s : Config.Settings) (a f b g : string) :
  (task_path s a ++ [f])%list `prefix_of` (task_path s b ++ [g])%list ->
  a = b /\ f = g.
Proof.
  unfold task_path. intros [k Hk].
  assert (k = []) as ->.
  { apply (f_equal length) in Hk. rewrite !length_app in Hk. cbn in Hk.
    destruct k; [done|cbn in Hk; lia]. }
  rewrite app_nil_r, <- !app_assoc in Hk. apply app_inv_head in Hk.
  by injection Hk as -> ->.
Qed.

(** A load for a task without a directory, under an existing scratch root,
    raises. *)
Lemma load_task_data_missing_task_dir (s : Config.Settings) (task_id filename : string)
    (fs : Node) (es : gmap string Node) :
  lookup_path fs (Config.shared_tmp_path s) = Some (Dir es) ->
  es !! task_id = None ->
  exists fs1, load_task_data s task_id filename fs = Raise (LibError "OSError") fs1.
Proof.
  intros Hroot Hc.
  destruct (mkdir_p_fresh _ _ _ _ Hroot Hc) as (fs1 & Hmk & Hdir).
  exists fs1.
  unfold load_task_data, get_task_file_path, get_task_dir, bind, ret, os_call, task_path.
  rewrite Hmk. unfold read_bytes.
  rewrite lookup_path_app, Hdir. cbn. by rewrite lookup_empty.
Qed.

End FileFacts.

(** X1.  What [save_task_data] has written, [load_task_data] reads back:
    after a save that returned, a load of the same file of the same task
    returns the saved bytes and changes nothing. *)
Theorem save_task_data_then_load (s : Config.Settings) (task_id filename : string)
    (data : list Byte.byte) (fs fs1 : Storage.Node) :
  Storage.save_task_data s task_id filename data fs = Ok tt fs1 ->
  Storage.load_task_data s task_id filename fs1 = Ok data fs1.
Proof.
  intros Hsave.
  destruct (save_task_data_inv _ _ _ _ _ _ Hsave) as (fs0 & _ & Hw).
  destruct (write_bytes_lookup _ _ _ _ _ Hw) as (Hfile & es & Hdir).
  rewrite (load_task_data_existing _ _ _ _ _ Hdir).
  unfold Storage.read_bytes. by rewrite Hfile.
Qed.

Lemma save_task_data_then_load_witness :
  exists fs1,
    Storage.save_task_data Config.defaults "task-c" "input.jpg" ["q"%byte]
      Fixtures.disk_without_a = Ok tt fs1 /\
    Storage.load_task_data Config.defaults "task-c" "input.jpg" fs1 = Ok ["q"%byte] fs1.
Proof.
  eexists. split; [vm_compute; reflexivity|].
  apply (save_task_data_then_load Config.defaults "task-c" "input.jpg" ["q"%byte]
           Fixtures.disk_without_a).
  vm_compute. reflexivity.
Defined.

(** X2.  A save touches one file only.  With plain names for the task ids
    and the file names: every other file, of the same task or of another
    one, reads afterwards as it did before. *)
Theorem save_task_data_leaves_other_files (s : Config.Settings)
    (task_id filename : string) (data : list Byte.byte) (fs fs1 : Storage.Node)
    (other_id other_file : string) :
  plain_name task_id = true -> plain_name filename = true ->
  plain_name other_id = true -> plain_name other_file = true ->
  Storage.save_task_data s task_id filename data fs = Ok tt fs1 ->
  (other_id, other_file) <> (task_id, filename) ->
  Storage.read_bytes (Storage.task_path s other_id ++ [other_file])%list fs1
  = Storage.read_bytes (Storage.task_path s other_id ++ [other_file])%list fs.
Proof.
  intros _ _ _ _ Hsave Hne.
  destruct (save_task_data_inv _ _ _ _ _ _ Hsave) as (fs0 & Hmk & Hw).
  unfold Storage.read_bytes.
  rewrite (write_bytes_frame _ (Storage.task_path s other_id ++ [other_file])%list _ _ _ Hw).
  - rewrite (mkdir_p_frame _ (Storage.task_path s other_id ++ [other_file])%list _ _ Hmk);
      [reflexivity|]. apply task_file_not_prefix.
  - intros Hpre. apply task_file_prefix_eq in Hpre as [-> ->]. by apply Hne.
Qed.

Lemma save_task_data_leaves_other_files_witness :
  plain_name "task-b" = true /\ plain_name "meta.json" = true /\
  plain_name "input.jpg" = true /\
  exists fs1,
    Storage.save_task_data Config.defaults "task-b" "meta.json" ["q"%byte]
      Fixtures.disk = Ok tt fs1 /\
    ("task-b", "input.jpg") <> ("task-b", "meta.json") /\
    Storage.read_bytes ["tmp"; "shared"; "tasks"; "task-b"; "input.jpg"] fs1
    = Some ["w"%byte].
Proof.
  split; [reflexivity|]. split; [reflexivity|]. split; [reflexivity|].
  eexists. split; [vm_compute; reflexivity|]. split; [discriminate|].
  rewrite (save_task_data_leaves_other_files Config.defaults "task-b" "meta.json"
             ["q"%byte] Fixtures.disk _ "task-b" "input.jpg").
  - vm_compute. reflexivity.
  - reflexivity.
  - reflexivity.
  - reflexivity.
  - reflexivity.
  - vm_compute. reflexivity.
  - discriminate.
Defined.

(** X3.  [load_task_data] is not read-only.  With plain names for the task
    id and the file name: for a task that has no directory yet (under an
    existing scratch root) the load raises, and leaves behind the empty
    task directory [get_task_dir] made on the way. *)
Theorem load_task_data_missing_task_makes_directory (s : Config.Settings)
    (task_id filename : string) (fs : Storage.Node) (es : gmap string Storage.Node) :
  plain_name task_id = true -> plain_name filename = true ->
  Storage.lookup_path fs (Config.shared_tmp_path s) = Some (Storage.Dir es) ->
  es !! task_id = None ->
  exists fs1,
    Storage.load_task_data s task_id filename fs = Raise (LibError "OSError") fs1 /\
    Storage.lookup_path fs (Storage.task_path s task_id) = None /\
    Storage.lookup_path fs1 (Storage.task_path s task_id) = Some (Storage.Dir ∅).
Proof.
  intros _ _ Hroot Hc.
  destruct (mkdir_p_fresh _ _ _ _ Hroot Hc) as (fs1 & Hmk & Hdir).
  exists fs1. split; [|split].
  - unfold Storage.load_task_data, Storage.get_task_file_path, Storage.get_task_dir,
      bind, ret, Storage.os_call, Storage.task_path.
    rewrite Hmk. unfold Storage.read_bytes.
    rewrite lookup_path_app, Hdir. cbn. by rewrite lookup_empty.
  - unfold Storage.task_path. rewrite lookup_path_app, Hroot. cbn. by rewrite Hc.
  - exact Hdir.
Qed.

Lemma load_task_data_missing_task_makes_directory_witness :
  plain_name "task-a" = true /\ plain_name "input.jpg" = true /\
  exists fs1,
    Storage.load_task_data Config.defaults "task-a" "input.jpg" Fixtures.disk_without_a
      = Raise (LibError "OSError") fs1 /\
    Storage.lookup_path Fixtures.disk_without_a ["tmp"; "shared"; "tasks"; "task-a"] = None /\
    Storage.lookup_path fs1 ["tmp"; "shared"; "tasks"; "task-a"] = Some (Storage.Dir ∅).
Proof.
  split; [reflexivity|]. split; [reflexivity|].
  apply (load_task_data_missing_task_makes_directory Config.defaults "task-a" "input.jpg"
           Fixtures.disk_without_a {[ "task-b" := Fixtures.task_b ]}).
  - reflexivity.
  - reflexivity.
  - vm_compute. reflexivity.
  - vm_compute. reflexivity.
Defined.

(** X4.  [get_task_dir] is idempotent: once it has returned, the directory
    exists at the path it returned, and calling it again returns the same
    path and changes nothing. *)
Theorem get_task_dir_idempotent (s : Config.Settings) (task_id : string)
    (fs fs1 : Storage.Node) (p : Storage.Path) :
  Storage.get_task_dir s task_id fs = Ok p fs1 ->
  p = Storage.task_path s task_id /\
  Storage.exists_ fs1 p = true /\
  Storage.get_task_dir s task_id fs1 = Ok p fs1.
Proof.
  unfold Storage.get_task_dir, bind, ret, Storage.os_call.
  destruct (Storage.mkdir_p (Storage.task_path s task_id) fs) as [fs0|] eqn:Hmk; [|done].
  intros [= <- <-].
  destruct (mkdir_p_makes_dir _ _ _ Hmk) as (es & Hdir).
  split; [reflexivity|]. split.
  - unfold Storage.exists_. apply bool_decide_eq_true_2. rewrite Hdir. eauto.
  - by rewrite (mkdir_p_existing _ _ _ Hdir).
Qed.

Lemma get_task_dir_idempotent_witness :
  exists fs1,
    Storage.get_task_dir Config.defaults "task-a" (Storage.Dir ∅)
      = Ok ["tmp"; "shared"; "tasks"; "task-a"] fs1 /\
    Storage.exists_ fs1 ["tmp"; "shared"; "tasks"; "task-a"] = true /\
    Storage.get_task_dir Config.defaults "task-a" fs1
      = Ok ["tmp"; "shared"; "tasks"; "task-a"] fs1.
Proof.
  eexists. split; [vm_compute; reflexivity|].
  apply (get_task_dir_idempotent Config.defaults "task-a" (Storage.Dir ∅)).
  vm_compute. reflexivity.
Defined.

(** X5.  Clean-up after a save, with plain names for the task ids and the
    file names: [cleanup_task] on the task returns, a load of the saved
    file then raises, and the files of every other task read as before the
    clean-up. *)
Theorem cleanup_task_discards_saved_data (s : Config.Settings)
    (task_id filename : string) (data : list Byte.byte) (fs fs1 : Storage.Node) :
  plain_name task_id = true -> plain_name filename = true ->
  Storage.save_task_data s task_id filename data fs = Ok tt fs1 ->
  exists fs2,
    TaskManager.cleanup_task s task_id fs1 = Ok tt fs2 /\
    (exists fs3,
       Storage.load_task_data s task_id filename fs2 = Raise (LibError "OSError") fs3) /\
    (forall other_id other_file,
       plain_name other_id = true -> plain_name other_file = true ->
       other_id <> task_id ->
       Storage.read_bytes (Storage.task_path s other_id ++ [other_file])%list fs2
       = Storage.read_bytes (Storage.task_path s other_id ++ [other_file])%list fs1).
Proof.
  intros _ _ Hsave.
  destruct (save_task_data_inv _ _ _ _ _ _ Hsave) as (fs0 & _ & Hw).
  destruct (write_bytes_lookup _ _ _ _ _ Hw) as (_ & es & Hdir).
  pose proof (mkdir_p_existing _ _ _ Hdir) as Hmk.
  destruct (cleanup_task_success s task_id fs1 fs1 Hmk) as (fs2 & Hrm & Hrun).
  exists fs2. split; [exact Hrun|].
  unfold Storage.task_path in Hrm.
  destruct (rmtree_gone _ _ _ _ Hrm) as (es' & Hroot & Hgone). split.
  - destruct (load_task_data_missing_task_dir s task_id filename fs2 es' Hroot Hgone)
      as (fs3 & Hload). eauto.
  - intros other_id other_file _ _ Hne. unfold Storage.read_bytes, Storage.task_path.
    rewrite <- !app_assoc. cbn [app].
    by rewrite (rmtree_sibling _ _ _ _ _ _ Hne Hrm).
Qed.

Lemma cleanup_task_discards_saved_data_witness :
  plain_name "task-c" = true /\ plain_name "input.jpg" = true /\
  exists fs1 fs2,
    Storage.save_task_data Config.defaults "task-c" "input.jpg" ["q"%byte]
      Fixtures.disk_without_a = Ok tt fs1 /\
    TaskManager.cleanup_task Config.defaults "task-c" fs1 = Ok tt fs2 /\
    (exists fs3,
       Storage.load_task_data Config.defaults "task-c" "input.jpg" fs2
       = Raise (LibError "OSError") fs3).
Proof.
  split; [reflexivity|]. split; [reflexivity|].
  eexists.
  destruct (cleanup_task_discards_saved_data Config.defaults "task-c" "input.jpg"
              ["q"%byte] Fixtures.disk_without_a _ eq_refl eq_refl eq_refl)
    as (fs2 & Hrun & Hload & _).
  exists fs2. split; [vm_compute; reflexivity|]. by split.
Defined.

(** ** More on [get_task_status], [wait_for_task] and [submit_subtasks] *)

Section MoreCoordinatorFacts.

Context `{RT : PyRuntime}.
Import Models.

(** Every outcome of [get_task_status], branch by branch. *)
Lemma get_task_status_cases (s : Config.Settings) (task_id : string) (w : World) :
  (exists e, TaskManager.get_task_status s task_id w = Raise e w) \/
  (exists status, TaskManager.get_task_status s task_id w = Ok status w /\
                  (Celery.state (backend w) task_id = "PENDING" -> state status = PENDING)) \/
  (exists submitted, overdue s task_id w submitted).
Proof.
  unfold TaskManager.get_task_status.
  destruct (of_value (Celery.state (backend w) task_id)) as [st|] eqn:Hdec; [|eauto].
  apply of_value_Some in Hdec.
  destruct (String.eqb (Celery.state (backend w) task_id) "PENDING") eqn:Hpend.
  - apply String.eqb_eq in Hpend.
    assert (st = PENDING) as ->.
    { rewrite Hpend in Hdec. by destruct st. }
    destruct (dict_get (Celery.info (backend w) task_id) "submitted_at")
      as [[iso|z]|] eqn:Hget; [|eauto|right; left; eauto].
    destruct (fromisoformat iso) as [|submitted|] eqn:Hparse; [eauto| |eauto].
    destruct (Z.gtb (now w - submitted)
                (TaskManager.seconds (Config.task_queue_timeout s))) eqn:Hlate.
    + right; right. exists submitted. split; [done|]. split; [eauto|].
      apply Z.gtb_lt in Hlate. lia.
    + right; left. eauto.
  - right; left. eexists. split; [reflexivity|].
    intros Hp. rewrite Hp in Hpend. discriminate.
Qed.

Lemma collect_signatures_app (reg : Celery.Registry) (pre rest : list SubTaskConfig)
    (tasks : list Celery.Signature) (b : Celery.Broker) :
  Forall (fun c => is_Some (reg !! name c)) pre ->
  exists sigs,
    TaskManager.collect_signatures reg (pre ++ rest)%list tasks b =
    TaskManager.collect_signatures reg rest (tasks ++ sigs)%list b.
Proof.
  revert tasks. induction pre as [|c pre IH]; intros tasks Hall.
  - exists []. by rewrite app_nil_r.
  - apply Forall_cons in Hall as [[t Ht] Hall].
    cbn [app TaskManager.collect_signatures]. rewrite Ht.
    destruct (IH (tasks ++ [Celery.signature t (args c) (kwargs c) (priority c)
                              (queue c) (timeout c)])%list Hall) as (sigs & ->).
    eexists (_ :: sigs). by rewrite <- app_assoc.
Qed.

Context `{SC : Scheduler}.

Lemma wait_loop_S (fuel : nat) (s : Config.Settings) (task_id : string)
    (timeout : option Z) (poll_interval start_time : Z) (w : World) :
  TaskManager.wait_loop (S fuel) s task_id timeout poll_interval start_time w =
  match TaskManager.get_task_status s task_id w with
  | Raise e w' => Some (Raise e w')
  | Ok status w' =>
      if TaskManager.is_done (state status) then Some (Ok status w')
      else if TaskManager.timed_out timeout (now w' - start_time) then
        Some (Ok (set_state_error status TIMEOUT "Client timeout") w')
      else if Z.ltb poll_interval 0 then Some (Raise (LibError "ValueError") w')
      else TaskManager.wait_loop fuel s task_id timeout poll_interval start_time
             (sleep poll_interval w')
  end.
Proof. reflexivity. Qed.

(** A loop with a positive timeout returns once the fuel outlasts the time
    that is left, when every sleep moves the clock on by the interval. *)
Lemma wait_loop_returns (fuel : nat) (s : Config.Settings) (task_id : string)
    (t poll_interval start_time : Z) (w : World) :
  0 < t -> 0 < poll_interval ->
  (forall w0, now w0 + poll_interval <= now (sleep poll_interval w0)) ->
  t - (now w - start_time) < Z.of_nat fuel * poll_interval ->
  is_Some (TaskManager.wait_loop (S fuel) s task_id (Some t) poll_interval start_time w).
Proof.
  intros Ht Hpi Htick. revert w.
  induction fuel as [|fuel IH]; intros w Hleft.
  all: rewrite wait_loop_S.
  all: destruct (get_task_status_frame s task_id w) as [_ Hnow]; cbv zeta in Hnow.
  all: destruct (TaskManager.get_task_status s task_id w) as [status w'|e w']; [|eauto].
  all: cbn [final_state] in Hnow.
  all: destruct (TaskManager.is_done (state status)); [eauto|].
  all: unfold TaskManager.timed_out.
  all: replace (Z.eqb t 0) with false by (symmetry; apply Z.eqb_neq; lia).
  all: cbn [negb andb].
  all: destruct (Z.gtb_spec (now w' - start_time) t) as [Hlate|Hearly]; [eauto|].
  all: replace (Z.ltb poll_interval 0) with false by (symmetry; apply Z.ltb_ge; lia).
  - lia.
  - apply IH. specialize (Htick w'). lia.
Qed.

End MoreCoordinatorFacts.

(** X6.  [get_task_status] changes the world in one case only.  When it
    raises, nothing has changed.  When it returns, either nothing has
    changed, or the returned state is [TIMEOUT] for a task the store shows as
    [PENDING] and the call has sent exactly one revoke request and made
    exactly one notification, for a wait above the queue timeout.  In no case
    does it write to the result store or to the clock. *)
Theorem get_task_status_side_effects `{RT : PyRuntime}
    (s : Config.Settings) (task_id : string) (w : World) :
  (forall e w', TaskManager.get_task_status s task_id w = Raise e w' -> w' = w) /\
  (forall status w',
     TaskManager.get_task_status s task_id w = Ok status w' ->
     backend w' = backend w /\ now w' = now w /\
     (w' = w \/
      (Models.state status = Models.TIMEOUT /\
       Celery.state (backend w) task_id = "PENDING" /\
       revoked w' = (revoked w ++ [(task_id, true)])%list /\
       exists wait,
         TaskManager.seconds (Config.task_queue_timeout s) < wait /\
         Notification.calls (outbox w') =
           (Notification.calls (outbox w) ++ [(task_id, wait)])%list))).
Proof.
  destruct (get_task_status_cases s task_id w)
    as [[e Hcall] | [(status & Hcall & _) | [submitted Hover]]].
  - rewrite Hcall. split; [by intros ? ? [= _ <-]|done].
  - rewrite Hcall. split; [done|]. intros ? ? [= _ <-]. auto.
  - destruct (get_task_status_overdue s task_id w submitted Hover)
      as (status & w' & Hcall & -> & Hbe & Hnow & Hrev & Hcalls).
    rewrite Hcall. split; [done|]. intros ? ? [= <- <-].
    split; [done|]. split; [done|]. right.
    destruct Hover as (Hst & _ & Hlate).
    split; [reflexivity|]. split; [done|]. split; [done|].
    exists (now w - submitted). split; [lia|done].
Qed.

(** X7.  The queue timeout is strict.  A [PENDING] task whose wait is at
    most [task_queue_timeout], the bound included, is reported as [PENDING]
    with no result and no error, and nothing is revoked or notified. *)
Theorem get_task_status_pending_within_timeout `{RT : PyRuntime}
    (s : Config.Settings) (task_id : string) (w : World) (iso : string) (submitted : Z) :
  Celery.state (backend w) task_id = "PENDING" ->
  dict_get (Celery.info (backend w) task_id) "submitted_at" = Some (FStr iso) ->
  fromisoformat iso = IsoNaive submitted ->
  now w - submitted <= TaskManager.seconds (Config.task_queue_timeout s) ->
  TaskManager.get_task_status s task_id w
  = Ok (Models.mk_status task_id Models.PENDING PyNone None) w.
Proof.
  intros Hstate Hget Hparse Hwait.
  unfold TaskManager.get_task_status, Celery.successful, Celery.failed.
  rewrite Hstate. change (Models.of_value "PENDING") with (Some Models.PENDING).
  cbn [String.eqb Ascii.eqb Bool.eqb]. cbv iota.
  rewrite Hget, Hparse.
  replace (Z.gtb _ _) with false; [reflexivity|].
  symmetry. destruct (Z.gtb_spec (now w - submitted)
                        (TaskManager.seconds (Config.task_queue_timeout s))); [lia|done].
Qed.

Lemma get_task_status_pending_within_timeout_witness :
  30000000 - 0 <= TaskManager.seconds (Config.task_queue_timeout Config.defaults) /\
  TaskManager.get_task_status (RT := Fixtures.runtime) Config.defaults "t1"
    (Fixtures.world "PENDING" Fixtures.envelope 30000000)
  = Ok (Models.mk_status "t1" Models.PENDING PyNone None)
       (Fixtures.world "PENDING" Fixtures.envelope 30000000).
Proof.
  split; [vm_compute; discriminate|].
  apply (get_task_status_pending_within_timeout (RT := Fixtures.runtime) Config.defaults
           "t1" (Fixtures.world "PENDING" Fixtures.envelope 30000000)
           "1970-01-01T00:00:00" 0).
  - reflexivity.
  - reflexivity.
  - reflexivity.
  - vm_compute. discriminate.
Defined.

(** X8.  A [PENDING] task whose payload has a [submitted_at] that is not a
    string, not in ISO format, or carries a time zone makes the call raise
    (the error of [fromisoformat] or of the subtraction), with nothing
    changed: no status is returned for it. *)
Theorem get_task_status_bad_submitted_at_raises `{RT : PyRuntime}
    (s : Config.Settings) (task_id : string) (w : World) (field : PyField) :
  Celery.state (backend w) task_id = "PENDING" ->
  dict_get (Celery.info (backend w) task_id) "submitted_at" = Some field ->
  (forall iso submitted, field = FStr iso -> fromisoformat iso <> IsoNaive submitted) ->
  exists class,
    TaskManager.get_task_status s task_id w = Raise (LibError class) w.
Proof.
  intros Hstate Hget Hbad.
  unfold TaskManager.get_task_status, Celery.successful, Celery.failed.
  rewrite Hstate. change (Models.of_value "PENDING") with (Some Models.PENDING).
  cbn [String.eqb Ascii.eqb Bool.eqb]. cbv iota. rewrite Hget.
  destruct field as [iso|z]; [|eauto].
  destruct (fromisoformat iso) as [|submitted|] eqn:Hparse; [eauto| |eauto].
  by destruct (Hbad iso submitted eq_refl).
Qed.

Lemma get_task_status_bad_submitted_at_raises_witness :
  let w := Fixtures.world "PENDING"
             (PyDict {[ "submitted_at" := FStr "1970-01-01T00:00:00+00:00" ]}) 31000000 in
  TaskManager.get_task_status (RT := Fixtures.runtime) Config.defaults "t1" w
  = Raise (LibError "TypeError") w.
Proof.
  intros w.
  destruct (get_task_status_bad_submitted_at_raises (RT := Fixtures.runtime)
              Config.defaults "t1" w (FStr "1970-01-01T00:00:00+00:00"))
    as (class & Hcall).
  - reflexivity.
  - reflexivity.
  - intros iso submitted [= <-]. discriminate.
  - rewrite Hcall. vm_compute in Hcall. congruence.
Defined.

(** X9.  With a positive timeout the wait ends.  When the interval between
    polls is positive and every sleep moves the clock on by at least that
    interval, [wait_for_task] has returned or raised after at most
    [timeout / poll_interval + 2] polls, whatever the task does. *)
Theorem wait_for_task_with_timeout_ends `{RT : PyRuntime} `{SC : Scheduler}
    (s : Config.Settings) (task_id : string) (t poll_interval : Z) (w : World) :
  0 < t -> 0 < poll_interval ->
  (forall w0, now w0 + poll_interval <= now (sleep poll_interval w0)) ->
  is_Some (TaskManager.wait_for_task (Z.to_nat (t / poll_interval) + 2) s task_id
             (Some t) poll_interval w).
Proof.
  intros Ht Hpi Htick. unfold TaskManager.wait_for_task.
  replace (Z.to_nat (t / poll_interval) + 2)%nat
    with (S (Z.to_nat (t / poll_interval) + 1)) by lia.
  apply wait_loop_returns; try done.
  assert (0 <= t / poll_interval) by (apply Z.div_pos; lia).
  pose proof (Z.mod_pos_bound t poll_interval Hpi) as Hmod.
  pose proof (Z.div_mod t poll_interval ltac:(lia)) as Hdiv.
  rewrite Nat2Z.inj_add, Z2Nat.id by done. nia.
Qed.

Lemma wait_for_task_with_timeout_ends_witness :
  0 < 1000000 /\ 0 < 500000 /\
  is_Some (TaskManager.wait_for_task (RT := Fixtures.runtime) (SC := Fixtures.idle) 4
             Config.defaults "t1" (Some 1000000) 500000
             (Fixtures.world "STARTED" PyNone 0)).
Proof.
  split; [lia|]. split; [lia|].
  apply (wait_for_task_with_timeout_ends (RT := Fixtures.runtime) (SC := Fixtures.idle)
           Config.defaults "t1" 1000000 500000 (Fixtures.world "STARTED" PyNone 0)).
  - lia.
  - lia.
  - intros w0. cbn. lia.
Defined.

(** X10.  A negative timeout is not "no timeout": it counts as true, and
    the time elapsed exceeds it at once.  When the first poll reports a
    state that is not terminal, the call returns after that one poll with
    state [TIMEOUT] and the error ["Client timeout"], without sleeping. *)
Theorem wait_for_task_negative_timeout `{RT : PyRuntime} `{SC : Scheduler}
    (s : Config.Settings) (task_id : string) (t poll_interval : Z) (w : World)
    (status : Models.TaskStatus) (w' : World) (fuel : nat) :
  t < 0 ->
  TaskManager.get_task_status s task_id w = Ok status w' ->
  TaskManager.is_done (Models.state status) = false ->
  TaskManager.wait_for_task (S fuel) s task_id (Some t) poll_interval w
  = Some (Ok (Models.set_state_error status Models.TIMEOUT "Client timeout") w').
Proof.
  intros Ht Hcall Hdone. unfold TaskManager.wait_for_task.
  rewrite wait_loop_S, Hcall, Hdone.
  destruct (get_task_status_frame s task_id w) as [_ Hnow]. cbv zeta in Hnow.
  rewrite Hcall in Hnow. cbn [final_state] in Hnow.
  unfold TaskManager.timed_out.
  replace (Z.eqb t 0) with false by (symmetry; apply Z.eqb_neq; lia).
  replace (Z.gtb (now w' - now w) t) with true by (symmetry; apply Z.gtb_lt; lia).
  reflexivity.
Qed.

Lemma wait_for_task_negative_timeout_witness :
  -1 < 0 /\
  TaskManager.wait_for_task (RT := Fixtures.runtime) (SC := Fixtures.idle) 1
    Config.defaults "t1" (Some (-1)) 500000 (Fixtures.world "STARTED" PyNone 0)
  = Some (Ok (Models.set_state_error (Models.mk_status "t1" Models.STARTED PyNone None)
                Models.TIMEOUT "Client timeout")
             (Fixtures.world "STARTED" PyNone 0)).
Proof.
  split; [lia|].
  apply (wait_for_task_negative_timeout (RT := Fixtures.runtime) (SC := Fixtures.idle)).
  - lia.
  - reflexivity.
  - reflexivity.
Defined.

(** X11.  The queue timeout comes before the client timeout.  For a task
    that is [PENDING] past the queue timeout, [wait_for_task] returns at its
    first poll, whatever its own timeout is: the status is the [TIMEOUT] of
    [get_task_status] with the message about the queue, and the task has
    been revoked and reported once. *)
Theorem wait_for_task_on_overdue_task `{RT : PyRuntime} `{SC : Scheduler}
    (s : Config.Settings) (task_id : string) (timeout : option Z) (poll_interval : Z)
    (w : World) (submitted : Z) (fuel : nat) :
  overdue s task_id w submitted ->
  exists status w',
    TaskManager.wait_for_task (S fuel) s task_id timeout poll_interval w
      = Some (Ok status w') /\
    Models.state status = Models.TIMEOUT /\
    Models.error status =
      Some ("Task timeout after " +:+ format_1f (now w - submitted) +:+ "s in queue") /\
    revoked w' = (revoked w ++ [(task_id, true)])%list /\
    Notification.calls (outbox w') =
      (Notification.calls (outbox w) ++ [(task_id, now w - submitted)])%list.
Proof.
  intros Hover.
  destruct (get_task_status_overdue s task_id w submitted Hover)
    as (status & w' & Hcall & -> & _ & _ & Hrev & Hcalls).
  eexists _, w'. unfold TaskManager.wait_for_task.
  rewrite wait_loop_S, Hcall. cbn. by repeat split.
Qed.

Lemma wait_for_task_on_overdue_task_witness :
  exists status w',
    TaskManager.wait_for_task (RT := Fixtures.runtime) (SC := Fixtures.idle) 1
      Config.defaults "t1" None 500000 Fixtures.stale = Some (Ok status w') /\
    Models.state status = Models.TIMEOUT /\
    Models.error status = Some "Task timeout after 31.0s in queue" /\
    revoked w' = [("t1", true)] /\
    Notification.calls (outbox w') = [("t1", 31000000)].
Proof.
  exact (wait_for_task_on_overdue_task (RT := Fixtures.runtime) (SC := Fixtures.idle)
           Config.defaults "t1" None 500000 Fixtures.stale 0 0%nat stale_overdue).
Defined.

(** X12.  The error of [submit_subtasks] names the first config, in the
    order of the list, whose name is not registered; configs after it are
    not looked at. *)
Theorem submit_subtasks_reports_first_unknown_name
    (reg : Celery.Registry) (parent_task_id : string)
    (before after : list Models.SubTaskConfig) (c : Models.SubTaskConfig)
    (parallel : bool) (b : Celery.Broker) :
  Forall (fun c0 => is_Some (reg !! Models.name c0)) before ->
  reg !! Models.name c = None ->
  TaskManager.submit_subtasks reg parent_task_id (before ++ c :: after)%list parallel b
  = Raise (ValueError ("Task " +:+ Models.name c +:+ " not found")) b.
Proof.
  intros Hbefore Hc.
  destruct (collect_signatures_app reg before (c :: after) [] b Hbefore) as (sigs & Hrun).
  unfold TaskManager.submit_subtasks, bind. rewrite Hrun.
  cbn [TaskManager.collect_signatures]. by rewrite Hc.
Qed.

Lemma submit_subtasks_reports_first_unknown_name_witness :
  TaskManager.submit_subtasks Fixtures.registry "parent"
    [Fixtures.config "classify_image"; Fixtures.config "first_missing";
     Fixtures.config "second_missing"] false Fixtures.empty_broker
  = Raise (ValueError "Task first_missing not found") Fixtures.empty_broker.
Proof.
  apply (submit_subtasks_reports_first_unknown_name Fixtures.registry "parent"
           [Fixtures.config "classify_image"] [Fixtures.config "second_missing"]
           (Fixtures.config "first_missing") false Fixtures.empty_broker).
  - repeat constructor. apply (bool_decide_unpack _). vm_compute. exact I.
  - vm_compute. reflexivity.
Defined.

(** ** The HTTP handlers *)

Section ApiFacts.

Import Models.

Lemma submit_task_unknown (route : string -> string) (reg : Celery.Registry)
    (n : string) (a : option (list PyVal)) (k : option (gmap string PyVal))
    (p : TaskPriority) (b : Celery.Broker) :
  reg !! n = None ->
  TaskManager.submit_task route reg n a k p b
  = Raise (ValueError ("Task " +:+ n +:+ " not found")) b.
Proof. intros Hn. unfold TaskManager.submit_task, raise. by rewrite Hn. Qed.

Lemma submit_task_known (route : string -> string) (reg : Celery.Registry)
    (t : Celery.Task) (request : TaskRequest) (b : Celery.Broker) :
  reg !! req_task_name request = Some t ->
  TaskManager.submit_task route reg (req_task_name request)
    (Some (req_args request)) (Some (req_kwargs request)) (req_priority request) b
  = Ok (Celery.fresh_id (Celery.next_id b))
       {| Celery.next_id := S (Celery.next_id b);
          Celery.published := (Celery.published b ++ [request_message route t request b])%list |}.
Proof.
  intros Hn. unfold TaskManager.submit_task, Celery.apply_async, request_message.
  rewrite Hn. cbn.
  destruct (req_args request); destruct (decide (req_kwargs request = ∅)) as [->|];
    reflexivity.
Qed.

End ApiFacts.

(** X13.  A submission over HTTP for a task name that is not registered is
    answered with a 500 whose detail is the not-found message, in
    asynchronous and in synchronous mode alike; nothing is published,
    nothing is polled and no clean-up is scheduled. *)
Theorem api_submit_unknown_task `{RT : PyRuntime} `{SC : Scheduler} (fuel : nat)
    (route : string -> string) (reg : Celery.Registry) (s : Config.Settings)
    (request : Models.TaskRequest) (sv : Api.Server) :
  reg !! Models.req_task_name request = None ->
  Api.submit_task fuel route reg s request sv
  = Some (Api.Http500
            (ValueError ("Task " +:+ Models.req_task_name request +:+ " not found")),
          sv).
Proof.
  intros Hn. unfold Api.submit_task.
  rewrite (submit_task_unknown _ _ _ _ _ _ _ Hn). by destruct sv.
Qed.

Lemma api_submit_unknown_task_witness :
  Api.submit_task (RT := Fixtures.runtime) (SC := Fixtures.idle) 0 Samples.route
    Fixtures.registry Config.defaults (Samples.request "nonexistent_task" true)
    (Samples.server Samples.finished)
  = Some (Api.Http500 (ValueError "Task nonexistent_task not found"),
          Samples.server Samples.finished).
Proof.
  apply (api_submit_unknown_task (RT := Fixtures.runtime) (SC := Fixtures.idle)).
  vm_compute. reflexivity.
Defined.

(** X14.  An asynchronous submission of a registered task is answered with
    state [PENDING] and the id of the one message it has published, which
    carries the arguments, keyword arguments and priority of the request;
    the status of the task is not read and no clean-up is scheduled. *)
Theorem api_submit_async `{RT : PyRuntime} `{SC : Scheduler} (fuel : nat)
    (route : string -> string) (reg : Celery.Registry) (s : Config.Settings)
    (request : Models.TaskRequest) (sv : Api.Server) (t : Celery.Task) :
  reg !! Models.req_task_name request = Some t ->
  Models.req_sync request = false ->
  Api.submit_task fuel route reg s request sv
  = Some (Api.Http200
            {| Models.resp_task_id := Celery.fresh_id (Celery.next_id (Api.broker sv));
               Models.resp_state := Models.PENDING;
               Models.resp_submitted_at := now (Api.world sv) |},
          {| Api.broker :=
               {| Celery.next_id := S (Celery.next_id (Api.broker sv));
                  Celery.published :=
                    (Celery.published (Api.broker sv)
                     ++ [request_message route t request (Api.broker sv)])%list |};
             Api.world := Api.world sv;
             Api.background := Api.background sv |}).
Proof.
  intros Hn Hsync. unfold Api.submit_task.
  by rewrite (submit_task_known _ _ _ _ _ Hn), Hsync.
Qed.

Lemma api_submit_async_witness :
  exists sv',
    Api.submit_task (RT := Fixtures.runtime) (SC := Fixtures.idle) 0 Samples.route
      Fixtures.registry Config.defaults (Samples.request "classify_image" false)
      (Samples.server Samples.retrying)
    = Some (Api.Http200 {| Models.resp_task_id := "task-0";
                           Models.resp_state := Models.PENDING;
                           Models.resp_submitted_at := 0 |}, sv') /\
    Api.world sv' = Samples.retrying /\ Api.background sv' = [].
Proof.
  eexists. split.
  - apply (api_submit_async (RT := Fixtures.runtime) (SC := Fixtures.idle) 0 Samples.route
             Fixtures.registry Config.defaults (Samples.request "classify_image" false)
             (Samples.server Samples.retrying) {| Celery.task_name := "classify_image" |}).
    + vm_compute. reflexivity.
    + reflexivity.
  - split; reflexivity.
Defined.

(** X15.  A synchronous submission of a registered task, once answered, has
    published exactly one message.  A 200 carries the id of that message and
    a terminal state, and the clean-up of that id has been scheduled.  A 500
    (a poll of the status raised) leaves the message published and schedules
    no clean-up. *)
Theorem api_submit_sync `{RT : PyRuntime} `{SC : Scheduler} (fuel : nat)
    (route : string -> string) (reg : Celery.Registry) (s : Config.Settings)
    (request : Models.TaskRequest) (sv sv' : Api.Server) (t : Celery.Task)
    (answer : Api.Http Models.TaskResponse) :
  reg !! Models.req_task_name request = Some t ->
  Models.req_sync request = true ->
  Api.submit_task fuel route reg s request sv = Some (answer, sv') ->
  Celery.published (Api.broker sv') =
    (Celery.published (Api.broker sv)
     ++ [request_message route t request (Api.broker sv)])%list /\
  match answer with
  | Api.Http200 body =>
      Models.resp_task_id body = Celery.fresh_id (Celery.next_id (Api.broker sv)) /\
      Models.resp_state body ∈
        [Models.SUCCESS; Models.FAILURE; Models.TIMEOUT; Models.REVOKED] /\
      Api.background sv' =
        (Api.background sv ++ [Celery.fresh_id (Celery.next_id (Api.broker sv))])%list
  | Api.Http500 _ => Api.background sv' = Api.background sv
  end.
Proof.
  intros Hn Hsync. unfold Api.submit_task.
  rewrite (submit_task_known _ _ _ _ _ Hn), Hsync.
  unfold TaskManager.wait_for_task.
  destruct (TaskManager.wait_loop fuel s _ _ _ _ (Api.world sv))
    as [[status w|e w]|] eqn:Hwait; [| |done].
  - intros [= <- <-]. split; [reflexivity|]. cbn.
    split; [reflexivity|]. split; [|reflexivity].
    apply wait_loop_returns_done in Hwait.
    unfold TaskManager.is_done in Hwait. by apply bool_decide_eq_true in Hwait.
  - intros [= <- <-]. by split.
Qed.

Lemma api_submit_sync_witness :
  exists sv',
    Api.submit_task (RT := Fixtures.runtime) (SC := Fixtures.idle) 1 Samples.route
      Fixtures.registry Config.defaults (Samples.request "classify_image" true)
      (Samples.server Samples.retrying)
    = Some (Api.Http500 (LibError "ValueError"), sv') /\
    Celery.published (Api.broker sv') =
      (Celery.published (Api.broker (Samples.server Samples.retrying))
       ++ [request_message Samples.route {| Celery.task_name := "classify_image" |}
             (Samples.request "classify_image" true)
             (Api.broker (Samples.server Samples.retrying))])%list /\
    Api.background sv' = Api.background (Samples.server Samples.retrying).
Proof.
  eexists. split; [vm_compute; reflexivity|].
  apply (api_submit_sync (RT := Fixtures.runtime) (SC := Fixtures.idle) 1 Samples.route
           Fixtures.registry Config.defaults (Samples.request "classify_image" true)
           (Samples.server Samples.retrying) _
           {| Celery.task_name := "classify_image" |} (Api.Http500 (LibError "ValueError"))).
  - vm_compute. reflexivity.
  - reflexivity.
  - vm_compute. reflexivity.
Defined.

(** A synchronous submission of a task the store shows as finished: the
    first poll returns, the answer is a 200 with state [SUCCESS], and the
    clean-up of the new id is scheduled. *)
Example api_submit_sync_success :
  exists sv',
    Api.submit_task (RT := Fixtures.runtime) (SC := Fixtures.idle) 1 Samples.route
      Fixtures.registry Config.defaults (Samples.request "classify_image" true)
      (Samples.server Samples.finished)
    = Some (Api.Http200 {| Models.resp_task_id := "task-0";
                           Models.resp_state := Models.SUCCESS;
                           Models.resp_submitted_at := 0 |}, sv') /\
    Api.background sv' = ["task-0"].
Proof. eexists. split; [vm_compute; reflexivity|reflexivity]. Qed.

(** X16.  A synchronous submission is answered.  With a positive
    [task_default_timeout], a registered task and a clock that every sleep
    moves on by at least the half second between polls, the handler has its
    answer after at most [2 * task_default_timeout + 2] polls. *)
Theorem api_submit_sync_answers `{RT : PyRuntime} `{SC : Scheduler}
    (route : string -> string) (reg : Celery.Registry) (s : Config.Settings)
    (request : Models.TaskRequest) (sv : Api.Server) (t : Celery.Task) :
  reg !! Models.req_task_name request = Some t ->
  0 < Config.task_default_timeout s ->
  (forall w0, now w0 + 500000 <= now (sleep 500000 w0)) ->
  is_Some (Api.submit_task (Z.to_nat (2 * Config.task_default_timeout s) + 2)
             route reg s request sv).
Proof.
  intros Hn Hpos Htick. unfold Api.submit_task.
  rewrite (submit_task_known _ _ _ _ _ Hn).
  destruct (Models.req_sync request); [|eauto].
  unfold TaskManager.wait_for_task.
  destruct (wait_loop_returns (Z.to_nat (2 * Config.task_default_timeout s) + 1) s
              (Celery.fresh_id (Celery.next_id (Api.broker sv)))
              (TaskManager.seconds (Config.task_default_timeout s)) 500000
              (now (Api.world sv)) (Api.world sv)) as [r Hr].
  - unfold TaskManager.seconds. lia.
  - lia.
  - exact Htick.
  - unfold TaskManager.seconds. rewrite Nat2Z.inj_add, Z2Nat.id by lia. lia.
  - replace (Z.to_nat (2 * Config.task_default_timeout s) + 2)%nat
      with (S (Z.to_nat (2 * Config.task_default_timeout s) + 1)) by lia.
    rewrite Hr. destruct r; eauto.
Qed.

Lemma api_submit_sync_answers_witness :
  0 < Config.task_default_timeout Config.defaults /\
  is_Some (Api.submit_task (RT := Fixtures.runtime) (SC := Fixtures.idle) 602
             Samples.route Fixtures.registry Config.defaults
             (Samples.request "classify_image" true) (Samples.server Samples.finished)).
Proof.
  split; [vm_compute; reflexivity|].
  apply (api_submit_sync_answers (RT := Fixtures.runtime) (SC := Fixtures.idle)
           Samples.route Fixtures.registry Config.defaults
           (Samples.request "classify_image" true) (Samples.server Samples.finished)
           {| Celery.task_name := "classify_image" |}).
  - vm_compute. reflexivity.
  - vm_compute. reflexivity.
  - intros w0. cbn. lia.
Defined.

(** X17.  Reading over HTTP the status of a task whose stored state is not
    one of the seven values of [TaskState] (a task the queue is retrying
    reads as [RETRY]) is answered with a 500, not with a status. *)
Theorem api_get_task_status_unknown_state `{RT : PyRuntime}
    (s : Config.Settings) (task_id : string) (w : World) :
  Celery.state (backend w) task_id ∉ map Models.value Models.members ->
  Api.get_task_status s task_id w = (Api.Http500 (LibError "ValueError"), w).
Proof.
  intros Hraw. unfold Api.get_task_status, TaskManager.get_task_status.
  by rewrite (of_value_None _ Hraw).
Qed.

Lemma api_get_task_status_unknown_state_witness :
  Api.get_task_status (RT := Fixtures.runtime) Config.defaults "task-0" Samples.retrying
  = (Api.Http500 (LibError "ValueError"), Samples.retrying).
Proof.
  apply (api_get_task_status_unknown_state (RT := Fixtures.runtime)).
  apply (bool_decide_unpack _). vm_compute. exact I.
Defined.

(** X18.  The clean-up over HTTP never answers 500: [cleanup_task] swallows
    every error, so the handler always reports success.  It does so also
    when the path of the task directory is taken by a regular file, in which
    case nothing has been removed. *)
Theorem api_cleanup_always_succeeds (s : Config.Settings) (task_id : string)
    (fs : Storage.Node) :
  (exists fs',
     Api.cleanup_task s task_id fs
     = (Api.Http200 ("success", "Task " +:+ task_id +:+ " cleaned up"), fs')) /\
  (forall data,
     Storage.lookup_path fs (Storage.task_path s task_id) = Some (Storage.File data) ->
     Api.cleanup_task s task_id fs
     = (Api.Http200 ("success", "Task " +:+ task_id +:+ " cleaned up"), fs)).
Proof.
  split.
  - unfold Api.cleanup_task.
    destruct (Storage.mkdir_p (Storage.task_path s task_id) fs) as [fs1|] eqn:Hmk.
    + destruct (cleanup_task_success s task_id fs fs1 Hmk) as (fs2 & _ & ->). eauto.
    + rewrite (cleanup_task_failure s task_id fs Hmk). eauto.
  - intros data Hfile. unfold Api.cleanup_task.
    rewrite (cleanup_task_failure s task_id fs); [reflexivity|].
    rewrite <- (app_nil_r (Storage.task_path s task_id)).
    by apply (mkdir_p_through_file _ [] _ data).
Qed.

Lemma api_cleanup_always_succeeds_witness :
  Storage.lookup_path Fixtures.disk_with_file ["tmp"; "shared"; "tasks"; "task-a"]
    = Some (Storage.File ["x"%byte]) /\
  Api.cleanup_task Config.defaults "task-a" Fixtures.disk_with_file
  = (Api.Http200 ("success", "Task task-a cleaned up"), Fixtures.disk_with_file).
Proof.
  split; [vm_compute; reflexivity|].
  apply (proj2 (api_cleanup_always_succeeds Config.defaults "task-a"
                  Fixtures.disk_with_file) ["x"%byte]).
  vm_compute. reflexivity.
Defined.

(** ** The metrics collector *)

Section MetricsFacts.

Import Metrics CeleryApp.

Lemma handle_all_app (e : bool) (l1 l2 : list Signal) (m : TaskMetrics) :
  handle_all e (l1 ++ l2)%list m = handle_all e l2 (handle_all e l1 m).
Proof. unfold handle_all. apply fold_left_app. Qed.

Lemma handle_all_cons (e : bool) (sg : Signal) (l : list Signal) (m : TaskMetrics) :
  handle_all e (sg :: l) m = handle_all e l (handle e sg m).
Proof. reflexivity. Qed.

(** The counter of completed tasks after one signal. *)
Lemma handle_completed (sg : Signal) (m : TaskMetrics) (k : string * string) :
  default 0%nat (tasks_completed (handle true sg m) !! k) =
  (default 0%nat (tasks_completed m !! k)
   + if decide (completion_label sg = Some k) then 1 else 0)%nat.
Proof.
  destruct sg as [i n t|i n t|i t]; cbn [handle completion_label].
  - cbn. rewrite decide_False by done. lia.
  - unfold task_postrun_handler, task_completed, inc.
    destruct (_task_start_times m !! i); cbn [tasks_completed];
      destruct (decide (Some (n, "success") = Some k)) as [[= <-]|Hne];
      rewrite ?lookup_insert_eq, ?lookup_insert_ne by congruence; cbn; lia.
  - unfold task_failure_handler, task_completed, inc.
    destruct (_task_start_times m !! i); cbn [tasks_completed];
      destruct (decide (Some ("unknown", "failure") = Some k)) as [[= <-]|Hne];
      rewrite ?lookup_insert_eq, ?lookup_insert_ne by congruence; cbn; lia.
Qed.

(** The table of start times after one signal. *)
Lemma handle_start_times_end (sg : Signal) (m : TaskMetrics) (task_id : string) :
  ends task_id sg ->
  _task_start_times (handle true sg m) !! task_id = None.
Proof.
  destruct sg as [i n t|i n t|i t]; cbn [ends handle]; [done| |]; intros ->.
  - unfold task_postrun_handler, task_completed.
    destruct (_task_start_times m !! task_id) eqn:Hs; cbn [_task_start_times];
      [apply lookup_delete_eq|done].
  - unfold task_failure_handler, task_completed.
    destruct (_task_start_times m !! task_id) eqn:Hs; cbn [_task_start_times];
      [apply lookup_delete_eq|done].
Qed.

Lemma handle_start_times_keep (sg : Signal) (m : TaskMetrics) (task_id : string) :
  ~ starts task_id sg ->
  _task_start_times m !! task_id = None ->
  _task_start_times (handle true sg m) !! task_id = None.
Proof.
  destruct sg as [i n t|i n t|i t]; cbn [starts handle]; intros Hns Hnone.
  - cbn. by rewrite lookup_insert_ne.
  - unfold task_postrun_handler, task_completed.
    destruct (_task_start_times m !! i); cbn [_task_start_times]; [|done].
    destruct (decide (i = task_id)) as [->|Hne];
      [apply lookup_delete_eq|by rewrite lookup_delete_ne].
  - unfold task_failure_handler, task_completed.
    destruct (_task_start_times m !! i); cbn [_task_start_times]; [|done].
    destruct (decide (i = task_id)) as [->|Hne];
      [apply lookup_delete_eq|by rewrite lookup_delete_ne].
Qed.

(** A completion right after the start of the same task. *)
Lemma task_completed_after_start (task_id n n0 : string) (ok : bool) (t0 t1 : Z)
    (m : TaskMetrics) :
  task_completed task_id n ok t1 (task_started task_id n0 t0 m) =
  {| tasks_submitted := tasks_submitted m;
     tasks_completed := inc (n, if ok then "success" else "failure") (tasks_completed m);
     task_duration := observe (n, _extract_worker_type n) (t1 - t0) (task_duration m);
     queue_depth := queue_depth m; tasks_timeout := tasks_timeout m;
     _task_start_times := delete task_id (<[task_id := t0]> (_task_start_times m)) |}.
Proof.
  unfold task_completed, task_started. cbn [_task_start_times].
  by rewrite lookup_insert_eq.
Qed.

(** A completion of a task that has no start time. *)
Lemma task_completed_without_start (task_id n : string) (ok : bool) (t : Z)
    (m : TaskMetrics) :
  _task_start_times m !! task_id = None ->
  task_completed task_id n ok t m =
  {| tasks_submitted := tasks_submitted m;
     tasks_completed := inc (n, if ok then "success" else "failure") (tasks_completed m);
     task_duration := task_duration m;
     queue_depth := queue_depth m; tasks_timeout := tasks_timeout m;
     _task_start_times := _task_start_times m |}.
Proof. intros Hnone. unfold task_completed. by rewrite Hnone. Qed.

End MetricsFacts.

(** X19.  The counter of completed tasks counts signals.  After any
    sequence of signals, the count under a pair of labels (task name,
    status) has grown by the number of post-run signals of that task name
    for status ["success"], and by the number of failure signals for the
    pair (["unknown"], ["failure"]); a pre-run signal counts nothing. *)
Theorem completed_counter_counts_signals (sgs : list CeleryApp.Signal)
    (m : Metrics.TaskMetrics) (k : string * string) :
  default 0%nat (Metrics.tasks_completed (CeleryApp.handle_all true sgs m) !! k) =
  (default 0%nat (Metrics.tasks_completed m !! k)
   + length (filter (fun sg => completion_label sg = Some k) sgs))%nat.
Proof.
  revert m. induction sgs as [|sg sgs IH]; intros m.
  - cbn. lia.
  - rewrite handle_all_cons, IH, handle_completed, filter_cons.
    destruct (decide (completion_label sg = Some k)); cbn [length]; lia.
Qed.

(** X20.  Failures are never counted under the name of the task that
    failed: the failure handler passes the name ["unknown"], so for every
    other task name the count with status ["failure"] stays what it was,
    whatever signals arrive. *)
Theorem failures_counted_under_unknown_only (sgs : list CeleryApp.Signal)
    (m : Metrics.TaskMetrics) (task_name : string) :
  task_name <> "unknown" ->
  default 0%nat
    (Metrics.tasks_completed (CeleryApp.handle_all true sgs m) !! (task_name, "failure"))
  = default 0%nat (Metrics.tasks_completed m !! (task_name, "failure")).
Proof.
  intros Hne. revert m. induction sgs as [|sg sgs IH]; intros m; [reflexivity|].
  rewrite handle_all_cons, IH, handle_completed.
  rewrite decide_False; [lia|].
  destruct sg; cbn; congruence.
Qed.

Lemma failures_counted_under_unknown_only_witness :
  "classify_image" <> "unknown" /\
  default 0%nat
    (Metrics.tasks_completed
       (CeleryApp.handle_all true
          [CeleryApp.Prerun "t1" "classify_image" 0; CeleryApp.Failure "t1" 5;
           CeleryApp.Postrun "t1" "classify_image" 6] Metrics.init)
     !! ("classify_image", "failure")) = 0%nat.
Proof.
  split; [discriminate|].
  apply (failures_counted_under_unknown_only
           [CeleryApp.Prerun "t1" "classify_image" 0; CeleryApp.Failure "t1" 5;
            CeleryApp.Postrun "t1" "classify_image" 6] Metrics.init "classify_image").
  discriminate.
Defined.

(** X21.  The table of start times does not leak.  Once a task has ended
    (post-run or failure signal) and has not been started again since, it has
    no entry in [_task_start_times], whatever happened before and whatever
    other signals arrived after. *)
Theorem start_times_forget_ended_tasks (before after : list CeleryApp.Signal)
    (sg : CeleryApp.Signal) (m : Metrics.TaskMetrics) (task_id : string) :
  ends task_id sg ->
  Forall (fun sg' => ~ starts task_id sg') after ->
  Metrics._task_start_times
    (CeleryApp.handle_all true (before ++ sg :: after)%list m) !! task_id = None.
Proof.
  intros Hend Hafter.
  rewrite handle_all_app, handle_all_cons.
  pose proof (handle_start_times_end sg (CeleryApp.handle_all true before m) task_id Hend)
    as Hnone.
  revert Hnone. generalize (CeleryApp.handle true sg (CeleryApp.handle_all true before m)).
  induction Hafter as [|sg' after Hns _ IH]; intros m' Hnone; [exact Hnone|].
  rewrite handle_all_cons. apply IH. by apply handle_start_times_keep.
Qed.

Lemma start_times_forget_ended_tasks_witness :
  Metrics._task_start_times
    (CeleryApp.handle_all true
       ([CeleryApp.Prerun "t1" "classify_image" 0; CeleryApp.Prerun "t2" "encode_result" 1]
        ++ CeleryApp.Failure "t1" 5 :: [CeleryApp.Postrun "t1" "classify_image" 6])%list
       Metrics.init) !! "t1" = None.
Proof.
  apply (start_times_forget_ended_tasks
           [CeleryApp.Prerun "t1" "classify_image" 0; CeleryApp.Prerun "t2" "encode_result" 1]
           [CeleryApp.Postrun "t1" "classify_image" 6] (CeleryApp.Failure "t1" 5)
           Metrics.init "t1").
  - reflexivity.
  - repeat constructor. intros H. exact H.
Defined.

(** X22.  A task that fails is counted twice and timed under the wrong
    labels.  When a task is started, the failure handler runs and then the
    post-run handler runs for it, the collector has counted one completion
    under (["unknown"], ["failure"]) and one under the task's name with
    status ["success"]; the one duration it has observed, from the start to
    the failure, is filed under task name ["unknown"] and worker type
    ["unknown"], and no duration is filed under any other labels. *)
Theorem failed_task_counted_as_failure_and_success (m : Metrics.TaskMetrics)
    (task_id task_name : string) (t0 t1 t2 : Z) :
  let m' := CeleryApp.handle_all true
              [CeleryApp.Prerun task_id task_name t0; CeleryApp.Failure task_id t1;
               CeleryApp.Postrun task_id task_name t2] m in
  default 0%nat (Metrics.tasks_completed m' !! ("unknown", "failure"))
    = S (default 0%nat (Metrics.tasks_completed m !! ("unknown", "failure"))) /\
  default 0%nat (Metrics.tasks_completed m' !! (task_name, "success"))
    = S (default 0%nat (Metrics.tasks_completed m !! (task_name, "success"))) /\
  Metrics.task_duration m' !! ("unknown", "unknown")
    = Some (default [] (Metrics.task_duration m !! ("unknown", "unknown")) ++ [t1 - t0])%list /\
  (forall k, k <> ("unknown", "unknown") ->
     Metrics.task_duration m' !! k = Metrics.task_duration m !! k) /\
  Metrics._task_start_times m' !! task_id = None.
Proof.
  cbv zeta. unfold CeleryApp.handle_all.
  cbn [fold_left CeleryApp.handle CeleryApp.task_prerun_handler
       CeleryApp.task_failure_handler CeleryApp.task_postrun_handler].
  rewrite task_completed_after_start.
  rewrite task_completed_without_start by (cbn; apply lookup_delete_eq).
  cbn [Metrics.tasks_completed Metrics.task_duration Metrics._task_start_times].
  change (Metrics._extract_worker_type "unknown") with "unknown".
  unfold Metrics.inc, Metrics.observe.
  split; [|split; [|split; [|split]]].
  - rewrite lookup_insert_ne by congruence. by rewrite lookup_insert_eq.
  - rewrite lookup_insert_eq. cbn. by rewrite lookup_insert_ne by congruence.
  - by rewrite lookup_insert_eq.
  - intros k Hk. by rewrite lookup_insert_ne.
  - apply lookup_delete_eq.
Qed.

(** X23.  Whatever the category, the task the GPU stage of the pipeline is
    routed to is filed under worker type ["gpu"] by the collector. *)
Theorem routed_gpu_task_has_gpu_worker_type (category : string) :
  Metrics._extract_worker_type (Pipeline.gpu_task_name category) = "gpu".
Proof.
  unfold Pipeline.gpu_task_name, Pipeline.gpu_task_map.
  destruct (decide (category = "general")) as [->|Hg]; [reflexivity|].
  destruct (decide (category = "portrait")) as [->|Hp]; [reflexivity|].
  destruct (decide (category = "landscape")) as [->|Hl]; [reflexivity|].
  by rewrite !lookup_insert_ne, lookup_empty.
Qed.

(** ** The GPU and CPU workers *)

Section WorkerFacts.

Import GpuWorker.

Lemma load_model_keeps (n p k : string) (ms : Models) (m : Model) :
  ms !! k = Some m -> (load_model n p ms).2 !! k = Some m.
Proof.
  intros Hk. unfold load_model.
  destruct (ms !! n) eqn:Hn; cbn [snd]; [done|].
  rewrite lookup_insert_ne; [done|]. intros ->. congruence.
Qed.

Lemma load_model_loaded (n p : string) (ms : Models) :
  (load_model n p ms).2 !! n = Some (load_model n p ms).1.
Proof.
  unfold load_model. destruct (ms !! n) eqn:Hn; cbn [fst snd]; [done|].
  apply lookup_insert_eq.
Qed.

Lemma preload_models_loaded (ms : Models) (n : string) :
  n ∈ ["general"; "portrait"; "landscape"] ->
  is_Some (preload_models ms !! n).
Proof.
  intros Hn. unfold preload_models. cbv zeta.
  set (ms1 := (load_model "general" "/models/general_model.pth" ms).2).
  set (ms2 := (load_model "portrait" "/models/portrait_model.pth" ms1).2).
  pose proof (load_model_loaded "general" "/models/general_model.pth" ms) as H1.
  pose proof (load_model_loaded "portrait" "/models/portrait_model.pth" ms1) as H2.
  pose proof (load_model_loaded "landscape" "/models/landscape_model.pth" ms2) as H3.
  fold ms1 in H1. fold ms2 in H2.
  apply elem_of_cons in Hn as [->|Hn].
  { eexists. apply load_model_keeps, load_model_keeps. exact H1. }
  apply elem_of_cons in Hn as [->|Hn].
  { eexists. apply load_model_keeps. exact H2. }
  apply elem_of_cons in Hn as [->|Hn]; [eauto|].
  by apply elem_of_nil in Hn.
Qed.

(** The quotient of two integers against a fraction, in integers. *)
Lemma ratio_ge (a : Z) (b : positive) (w h : Z) :
  0 < h ->
  Qle_bool (a # b) (inject_Z w / inject_Z h) = Z.leb (a * h) (w * Z.pos b).
Proof.
  intros Hh. destruct h as [|p|p]; try lia.
  unfold Qle_bool, Qdiv, Qmult, Qinv, inject_Z. cbn [Qnum Qden].
  f_equal; lia.
Qed.

Lemma ratio_le (a : Z) (b : positive) (w h : Z) :
  0 < h ->
  Qle_bool (inject_Z w / inject_Z h) (a # b) = Z.leb (w * Z.pos b) (a * h).
Proof.
  intros Hh. destruct h as [|p|p]; try lia.
  unfold Qle_bool, Qdiv, Qmult, Qinv, inject_Z. cbn [Qnum Qden].
  f_equal; lia.
Qed.

End WorkerFacts.

(** X24.  The model registry loads a model once.  A second [load_model]
    under the same name, whatever path it names, returns the entry of the
    first call and leaves the registry as it was; [get_model] then returns
    that entry; and [preload_models] never replaces an entry that is already
    there. *)
Theorem load_model_loads_once (ms : GpuWorker.Models) (n p1 p2 : string) :
  GpuWorker.load_model n p2 (GpuWorker.load_model n p1 ms).2
    = GpuWorker.load_model n p1 ms /\
  GpuWorker.get_model n (GpuWorker.load_model n p1 ms).2
    = Some (GpuWorker.load_model n p1 ms).1 /\
  (forall k m, ms !! k = Some m -> GpuWorker.preload_models ms !! k = Some m).
Proof.
  split; [|split].
  - pose proof (load_model_loaded n p1 ms) as Hl.
    unfold GpuWorker.load_model at 1. rewrite Hl.
    by destruct (GpuWorker.load_model n p1 ms).
  - apply load_model_loaded.
  - intros k m Hk. unfold GpuWorker.preload_models. cbv zeta.
    by do 3 apply load_model_keeps.
Qed.

(** X25.  After [preload_models] the three GPU tasks find their model:
    from any registry, each of them makes the task directory, runs the image
    step on the input with the output file [output.jpg] of the task, and
    returns that path; the error "not loaded" cannot occur. *)
Theorem gpu_tasks_find_model_after_preload
    (infer : Storage.Path -> Storage.Path -> Storage.Node -> Outcome Storage.Node unit)
    (ms : GpuWorker.Models) (s : Config.Settings) (task_id : string)
    (input_path : Storage.Path) (fs : Storage.Node) :
  let run :=
    (let! output_path := Storage.get_task_file_path s task_id "output.jpg" in
     do! infer input_path output_path in
     ret output_path) fs in
  GpuWorker.gpu_inference_general infer (GpuWorker.preload_models ms) s task_id
    input_path fs = run /\
  GpuWorker.gpu_inference_portrait infer (GpuWorker.preload_models ms) s task_id
    input_path fs = run /\
  GpuWorker.gpu_inference_landscape infer (GpuWorker.preload_models ms) s task_id
    input_path fs = run.
Proof.
  cbv zeta.
  unfold GpuWorker.gpu_inference_general, GpuWorker.gpu_inference_portrait,
    GpuWorker.gpu_inference_landscape, GpuWorker.gpu_inference,
    GpuWorker.run_inference, GpuWorker.get_model.
  destruct (preload_models_loaded ms "general") as [m1 ->]; [set_solver|].
  destruct (preload_models_loaded ms "portrait") as [m2 ->]; [set_solver|].
  destruct (preload_models_loaded ms "landscape") as [m3 ->]; [set_solver|].
  done.
Qed.

(** X26.  A GPU task on a worker whose registry lacks the model raises the
    [ValueError] "not loaded" without running the image step, but only after
    [get_task_file_path] has made the task directory, which stays. *)
Theorem gpu_task_without_model_raises
    (infer : Storage.Path -> Storage.Path -> Storage.Node -> Outcome Storage.Node unit)
    (ms : GpuWorker.Models) (name : string) (s : Config.Settings) (task_id : string)
    (input_path : Storage.Path) (fs fs1 : Storage.Node) (p : Storage.Path) :
  ms !! name = None ->
  Storage.get_task_dir s task_id fs = Ok p fs1 ->
  GpuWorker.gpu_inference infer ms name s task_id input_path fs
    = Raise (ValueError ("Model " +:+ name +:+ " not loaded")) fs1 /\
  Storage.exists_ fs1 (Storage.task_path s task_id) = true.
Proof.
  intros Hname Hdir.
  unfold GpuWorker.gpu_inference, GpuWorker.run_inference, GpuWorker.get_model,
    Storage.get_task_file_path, bind, ret, raise.
  rewrite Hdir, Hname. split; [reflexivity|].
  revert Hdir. unfold Storage.get_task_dir, bind, ret, Storage.os_call.
  destruct (Storage.mkdir_p (Storage.task_path s task_id) fs) as [fs0|] eqn:Hmk; [|done].
  intros [= _ <-]. destruct (mkdir_p_makes_dir _ _ _ Hmk) as (es & Hes).
  unfold Storage.exists_. apply bool_decide_eq_true_2. rewrite Hes. eauto.
Qed.

Lemma gpu_task_without_model_raises_witness :
  exists fs1,
    GpuWorker.gpu_inference_general Samples.no_infer ∅ Config.defaults "task-a"
      ["tmp"; "in.jpg"] (Storage.Dir ∅)
    = Raise (ValueError "Model general not loaded") fs1 /\
    Storage.exists_ fs1 ["tmp"; "shared"; "tasks"; "task-a"] = true.
Proof.
  eexists.
  apply (gpu_task_without_model_raises Samples.no_infer ∅ "general" Config.defaults
           "task-a" ["tmp"; "in.jpg"] (Storage.Dir ∅) _ ["tmp"; "shared"; "tasks"; "task-a"]).
  - reflexivity.
  - vm_compute. reflexivity.
Defined.

(** X27.  The classification by aspect ratio, in terms of the two sides of
    the image (height positive): [PORTRAIT] exactly when
    [0.7 <= width / height <= 1.3], bounds included; [LANDSCAPE] exactly when
    [width / height > 1.5], the bound excluded; [GENERAL] otherwise, which
    covers every image taller than 10:7 and the ratios above 1.3 up to 1.5. *)
Theorem categorize_by_sides (w h : Z) :
  0 < h ->
  let c := CpuWorker.categorize (inject_Z w / inject_Z h) in
  (c = CpuWorker.PORTRAIT <-> 7 * h <= 10 * w <= 13 * h) /\
  (c = CpuWorker.LANDSCAPE <-> 3 * h < 2 * w) /\
  (c = CpuWorker.GENERAL <-> 10 * w < 7 * h \/ (13 * h < 10 * w /\ 2 * w <= 3 * h)).
Proof.
  intros Hh. cbv zeta. unfold CpuWorker.categorize.
  rewrite (ratio_ge 7 10 w h Hh), (ratio_le 13 10 w h Hh), (ratio_le 3 2 w h Hh).
  destruct (Z.leb_spec (7 * h) (w * 10)); destruct (Z.leb_spec (w * 10) (13 * h));
    destruct (Z.leb_spec (w * 2) (3 * h)); cbn [andb negb];
    (split; [|split]); split; try discriminate; try done; try lia.
Qed.

Lemma categorize_by_sides_witness :
  0 < 1080 /\
  CpuWorker.categorize (inject_Z 1920 / inject_Z 1080) = CpuWorker.LANDSCAPE /\
  CpuWorker.categorize (inject_Z 1500 / inject_Z 1000) = CpuWorker.GENERAL /\
  CpuWorker.categorize (inject_Z 600 / inject_Z 1000) = CpuWorker.GENERAL.
Proof.
  split; [lia|]. split; [|split].
  - apply (proj1 (proj2 (categorize_by_sides 1920 1080 ltac:(lia)))). lia.
  - apply (proj2 (proj2 (categorize_by_sides 1500 1000 ltac:(lia)))). lia.
  - apply (proj2 (proj2 (categorize_by_sides 600 1000 ltac:(lia)))). lia.
Defined.

(** X28.  What [classify_image] returns fits the rest of the pipeline.
    When it returns, the category is the value of one of the three image
    categories, so both routing tables of the GPU stage have an entry for it
    and the fallback of the routing is not used; and the file
    [classification.json] of the task holds the serialised result. *)
Theorem classify_image_result_routes
    (image_size : list Byte.byte -> option (Z * Z))
    (dumps : CpuWorker.Classification -> list Byte.byte)
    (s : Config.Settings) (task_id : string) (image_path : Storage.Path)
    (fs fs' : Storage.Node) (r : CpuWorker.Classification) :
  CpuWorker.classify_image image_size dumps s task_id image_path fs = Ok r fs' ->
  (exists c, CpuWorker.category r = CpuWorker.value c) /\
  Pipeline.gpu_task_map !! CpuWorker.category r
    = Some ("gpu_inference_" +:+ CpuWorker.category r) /\
  is_Some (Pipeline.gpu_queue_map s !! CpuWorker.category r) /\
  Storage.load_task_data s task_id "classification.json" fs' = Ok (dumps r) fs'.
Proof.
  unfold CpuWorker.classify_image.
  destruct (Storage.read_bytes image_path fs) as [data|]; [|done].
  destruct (image_size data) as [[w h]|]; [|done].
  destruct (Z.eqb h 0); [done|].
  unfold bind, ret.
  destruct (Storage.save_task_data s task_id "classification.json" _ fs)
    as [[] fs1|e fs1] eqn:Hsave; [|done].
  intros [= <- <-]. cbn [CpuWorker.category].
  split; [eauto|]. split; [|split].
  - by destruct (CpuWorker.categorize _).
  - destruct (CpuWorker.categorize _); cbn; unfold Pipeline.gpu_queue_map;
      rewrite ?lookup_insert_eq, ?lookup_insert_ne by done;
      rewrite ?lookup_insert_eq, ?lookup_insert_ne by done;
      rewrite ?lookup_insert_eq; eauto.
  - destruct (save_task_data_inv _ _ _ _ _ _ Hsave) as (fs0 & _ & Hw).
    destruct (write_bytes_lookup _ _ _ _ _ Hw) as (Hfile & es & Hdir).
    rewrite (load_task_data_existing _ _ _ _ _ Hdir).
    unfold Storage.read_bytes. by rewrite Hfile.
Qed.

Lemma classify_image_result_routes_witness :
  let fs := Fixtures.under ["tmp"; "shared"; "tasks"]
              (Storage.Dir {[ "task-a" :=
                 Storage.Dir {[ "input.jpg" := Storage.File ["048"%byte; "016"%byte] ]} ]}) in
  exists r fs',
    CpuWorker.classify_image Samples.image_size Samples.dumps Config.defaults "task-a"
      ["tmp"; "shared"; "tasks"; "task-a"; "input.jpg"] fs = Ok r fs' /\
    CpuWorker.category r = "landscape" /\
    Pipeline.gpu_task_map !! CpuWorker.category r = Some "gpu_inference_landscape" /\
    Storage.load_task_data Config.defaults "task-a" "classification.json" fs'
      = Ok (Samples.dumps r) fs'.
Proof.
  intros fs. eexists _, _. split; [vm_compute; reflexivity|].
  split; [reflexivity|].
  destruct (classify_image_result_routes Samples.image_size Samples.dumps Config.defaults
              "task-a" ["tmp"; "shared"; "tasks"; "task-a"; "input.jpg"] fs _ _ eq_refl)
    as (_ & Hroute & _ & Hload).
  split; [exact Hroute|exact Hload].
Defined.

(** ** Notification and the state enum *)

(** X29.  [notify_admin_timeout] never raises and attempts the webhook at
    most once: exactly one post, with event ["task_timeout"], the task id and
    the wait, reaches the endpoint when a webhook URL is configured and the
    endpoint answers, none otherwise; a failing endpoint is not an error of
    the call.  The e-mail setting changes nothing that is sent. *)
Theorem notify_admin_timeout_delivery `{RT : PyRuntime} (s : Config.Settings)
    (task_id : string) (wait : Z) (o : Notification.Outbox) :
  exists o',
    Notification.notify_admin_timeout s task_id wait o = Ok tt o' /\
    Notification.webhook_up o' = Notification.webhook_up o /\
    Notification.webhooks o' =
      (Notification.webhooks o ++
       match Notification.configured (Config.admin_webhook_url s) with
       | Some url =>
           if Notification.webhook_up o then
             [(url, {| Notification.event := "task_timeout";
                       Notification.p_task_id := task_id;
                       Notification.wait_time := wait;
                       Notification.message :=
                         "Task " +:+ task_id +:+ " timed out after "
                         +:+ format_1f wait +:+ "s in queue" |})]
           else []
       | None => []
       end)%list.
Proof.
  unfold Notification.notify_admin_timeout, Notification.enter,
    Notification._send_webhook, Notification._send_email, bind, ret, try_except_log.
  destruct (Notification.configured (Config.admin_webhook_url s));
    destruct (Notification.configured (Config.admin_email s));
    cbn; destruct (Notification.webhook_up o) eqn:Hup; cbn;
    eexists; (split; [reflexivity|]); cbn; rewrite ?Hup, ?app_nil_r; done.
Qed.

(** X30.  Decoding and encoding the task state are inverse to each other:
    [TaskState(raw)] is the member [st] exactly when [raw] is the value of
    [st]; so every member is read back from its own value, no two members
    share a value, and the match is exact in letter case. *)
Theorem task_state_round_trip (raw : string) (st : Models.TaskState) :
  Models.of_value raw = Some st <-> raw = Models.value st.
Proof.
  split; [apply of_value_Some|]. intros ->. apply of_value_value.
Qed.
